(** * tingwu_transcribe: request signing and task polling

    A shallow embedding of [scripts/tingwu_transcribe.py].  The script signs
    every call to the Tingwu service with the ACS3-HMAC-SHA256 scheme, submits
    a transcription task and polls it until the service reports a terminal
    status.

    Conventions of the embedding:
    - a Python [str] is represented by its UTF-8 byte sequence, as a
      [string]; [str.encode()] is then the map to the list of bytes;
    - a [dict] lives in a heap and is named by a location, because [sign]
      mutates the mapping it is given and returns that same object;
    - what the network returns is bytes, which the script decodes where the
      source calls [decode()];
    - the clock, the network and the functions of the Python library that
      are not part of the script are read through the [Runtime] interface. *)

From Stdlib Require Import ZArith Ascii String List Lia Permutation.
From stdpp Require Import gmap strings list pretty.
Import ListNotations.
Local Open Scope Z_scope.
Local Open Scope string_scope.
Local Open Scope list_scope.
Set Warnings "-register-all".
Set Default Proof Using "Type".

(** ** hashlib and hmac: SHA-256 (FIPS 180-4) and HMAC (RFC 2104) *)

Module Hashlib.

(** Bytes are integers in [0, 256). *)
Definition bytes := list Z.

(** [str.encode()]: the bytes of the string. *)
Definition encode (s : string) : bytes :=
  map (fun c => Z.of_N (N_of_ascii c)) (list_ascii_of_string s).

Definition mask32 : Z := 0xFFFFFFFF.
Definition add32 (x y : Z) : Z := Z.land (x + y) mask32.
Definition not32 (x : Z) : Z := Z.lxor x mask32.
Definition rotr (x : Z) (n : Z) : Z :=
  Z.land (Z.lor (Z.shiftr x n) (Z.shiftl x (32 - n))) mask32.

Definition Ch (x y z : Z) : Z := Z.lxor (Z.land x y) (Z.land (not32 x) z).
Definition Maj (x y z : Z) : Z :=
  Z.lxor (Z.lxor (Z.land x y) (Z.land x z)) (Z.land y z).
Definition bsig0 (x : Z) : Z := Z.lxor (Z.lxor (rotr x 2) (rotr x 13)) (rotr x 22).
Definition bsig1 (x : Z) : Z := Z.lxor (Z.lxor (rotr x 6) (rotr x 11)) (rotr x 25).
Definition ssig0 (x : Z) : Z := Z.lxor (Z.lxor (rotr x 7) (rotr x 18)) (Z.shiftr x 3).
Definition ssig1 (x : Z) : Z := Z.lxor (Z.lxor (rotr x 17) (rotr x 19)) (Z.shiftr x 10).

(** The sixty-four round constants. *)
Definition round_constants : list Z :=
  [0x428A2F98; 0x71374491; 0xB5C0FBCF; 0xE9B5DBA5;
   0x3956C25B; 0x59F111F1; 0x923F82A4; 0xAB1C5ED5;
   0xD807AA98; 0x12835B01; 0x243185BE; 0x550C7DC3;
   0x72BE5D74; 0x80DEB1FE; 0x9BDC06A7; 0xC19BF174;
   0xE49B69C1; 0xEFBE4786; 0x0FC19DC6; 0x240CA1CC;
   0x2DE92C6F; 0x4A7484AA; 0x5CB0A9DC; 0x76F988DA;
   0x983E5152; 0xA831C66D; 0xB00327C8; 0xBF597FC7;
   0xC6E00BF3; 0xD5A79147; 0x06CA6351; 0x14292967;
   0x27B70A85; 0x2E1B2138; 0x4D2C6DFC; 0x53380D13;
   0x650A7354; 0x766A0ABB; 0x81C2C92E; 0x92722C85;
   0xA2BFE8A1; 0xA81A664B; 0xC24B8B70; 0xC76C51A3;
   0xD192E819; 0xD6990624; 0xF40E3585; 0x106AA070;
   0x19A4C116; 0x1E376C08; 0x2748774C; 0x34B0BCB5;
   0x391C0CB3; 0x4ED8AA4A; 0x5B9CCA4F; 0x682E6FF3;
   0x748F82EE; 0x78A5636F; 0x84C87814; 0x8CC70208;
   0x90BEFFFA; 0xA4506CEB; 0xBEF9A3F7; 0xC67178F2].

(** The eight chaining words. *)
Record state := State {
  wa : Z; wb : Z; wc : Z; wd : Z; we : Z; wf : Z; wg : Z; wh : Z }.

Definition initial_state : state :=
  State 0x6A09E667 0xBB67AE85 0x3C6EF372 0xA54FF53A
        0x510E527F 0x9B05688C 0x1F83D9AB 0x5BE0CD19.

(** Padding: a 1 bit, zeros up to 56 mod 64 bytes, the bit length on 8 bytes. *)
Definition be_bytes (width : nat) (x : Z) : bytes :=
  map (fun i => Z.land (Z.shiftr x (8 * Z.of_nat i)) 0xFF) (rev (seq 0 width)).

Definition pad (msg : bytes) : bytes :=
  let len := Z.of_nat (length msg) in
  msg ++ [0x80] ++ repeat 0 (Z.to_nat ((55 - len) mod 64)) ++ be_bytes 8 (8 * len).

Fixpoint be_words (n : nat) (bs : bytes) : list Z :=
  match n, bs with
  | S n', b0 :: b1 :: b2 :: b3 :: rest =>
      (Z.shiftl b0 24 + Z.shiftl b1 16 + Z.shiftl b2 8 + b3) :: be_words n' rest
  | _, _ => []
  end.

Fixpoint blocks (n : nat) (bs : bytes) : list (list Z) :=
  match n with
  | O => []
  | S n' => be_words 16 (firstn 64 bs) :: blocks n' (skipn 64 bs)
  end.

(** Message schedule: the sixteen words of the block, extended to sixty-four. *)
Fixpoint extend (n : nat) (w : list Z) : list Z :=
  match n with
  | O => w
  | S n' =>
      let t := length w in
      let x := add32 (add32 (ssig1 (nth (t - 2) w 0)) (nth (t - 7) w 0))
                     (add32 (ssig0 (nth (t - 15) w 0)) (nth (t - 16) w 0)) in
      extend n' (w ++ [x])
  end.

Definition round (s : state) (kw : Z * Z) : state :=
  let '(k, w) := kw in
  let t1 := add32 (add32 (add32 (add32 (wh s) (bsig1 (we s))) (Ch (we s) (wf s) (wg s))) k) w in
  let t2 := add32 (bsig0 (wa s)) (Maj (wa s) (wb s) (wc s)) in
  State (add32 t1 t2) (wa s) (wb s) (wc s) (add32 (wd s) t1) (we s) (wf s) (wg s).

Definition compress (h : state) (block : list Z) : state :=
  let s := fold_left round (combine round_constants (extend 48 block)) h in
  State (add32 (wa h) (wa s)) (add32 (wb h) (wb s)) (add32 (wc h) (wc s))
        (add32 (wd h) (wd s)) (add32 (we h) (we s)) (add32 (wf h) (wf s))
        (add32 (wg h) (wg s)) (add32 (wh h) (wh s)).

Definition sha256_state (msg : bytes) : state :=
  let p := pad msg in
  fold_left compress (blocks (length p / 64) p) initial_state.

Definition digest_of_state (s : state) : bytes :=
  flat_map (be_bytes 4) [wa s; wb s; wc s; wd s; we s; wf s; wg s; wh s].

(** [hashlib.sha256(msg).digest()] *)
Definition sha256 (msg : bytes) : bytes := digest_of_state (sha256_state msg).

(** Lowercase hexadecimal, as [hexdigest()] prints it. *)
Definition hex_digit (n : Z) : ascii :=
  nth (Z.to_nat n) (list_ascii_of_string "0123456789abcdef") "0"%char.

Definition hex_word (x : Z) : string :=
  string_of_list_ascii
    (map (fun i => hex_digit (Z.land (Z.shiftr x (4 * Z.of_nat i)) 0xF)) (rev (seq 0 8))).

Definition hex_of_state (s : state) : string :=
  hex_word (wa s) +:+ hex_word (wb s) +:+ hex_word (wc s) +:+ hex_word (wd s) +:+
  hex_word (we s) +:+ hex_word (wf s) +:+ hex_word (wg s) +:+ hex_word (wh s).

(** [hashlib.sha256(msg).hexdigest()] *)
Definition sha256_hexdigest (msg : bytes) : string := hex_of_state (sha256_state msg).

(** [hmac.new(key, msg, hashlib.sha256)]: keys longer than a block are
    hashed first, then zero-padded to the block size. *)
Definition block_size : nat := 64.

Definition hmac_key (key : bytes) : bytes :=
  let k := if (block_size <? length key)%nat then sha256 key else key in
  k ++ repeat 0 (block_size - length k).

Definition hmac_sha256_state (key msg : bytes) : state :=
  let k := hmac_key key in
  let inner := sha256 (map (Z.lxor 0x36) k ++ msg) in
  sha256_state (map (Z.lxor 0x5C) k ++ inner).

(** [hmac.new(key, msg, hashlib.sha256).hexdigest()] *)
Definition hmac_sha256_hexdigest (key msg : bytes) : string :=
  hex_of_state (hmac_sha256_state key msg).

End Hashlib.

(** ** Python values, exceptions and the world the script runs in *)

(** The exceptions that can be raised while the script runs.  [HTTPError]
    carries the status code and the bytes that [e.read()] returns. *)
Inductive exn :=
| KeyError (key : string)
| ValueError (msg : string)
| TypeError (msg : string)
| AttributeError (msg : string)
| JSONDecodeError (msg : string)
| UnicodeDecodeError
| HTTPError (code : Z) (body : string)
| URLError (reason : string)
| TimeoutError
| SyntaxError
| NameError (name : string)
| SystemExit (code : Z).

Inductive result (A : Type) :=
| Ok (a : A)
| Raise (e : exn).
Arguments Ok {A} a.
Arguments Raise {A} e.

(** *** Bytes and text

    What comes off the network is a sequence of bytes, kept as a [string];
    [bytes.decode()] accepts it when it is well-formed UTF-8 (no stray
    continuation byte, no overlong form, no surrogate, nothing above
    U+10FFFF) and raises [UnicodeDecodeError] otherwise. *)

Definition between (lo hi b : nat) : bool := ((lo <=? b) && (b <=? hi))%nat.

Definition continuation (b : nat) : bool := between 128 191 b.

Fixpoint well_formed (bs : list nat) : bool :=
  match bs with
  | [] => true
  | b0 :: r0 =>
      if (b0 <=? 127)%nat then well_formed r0
      else
        match r0 with
        | [] => false
        | b1 :: r1 =>
            if between 194 223 b0 then continuation b1 && well_formed r1
            else
              match r1 with
              | [] => false
              | b2 :: r2 =>
                  if (b0 =? 224)%nat then
                    between 160 191 b1 && continuation b2 && well_formed r2
                  else if between 225 236 b0 || between 238 239 b0 then
                    continuation b1 && continuation b2 && well_formed r2
                  else if (b0 =? 237)%nat then
                    between 128 159 b1 && continuation b2 && well_formed r2
                  else
                    match r2 with
                    | [] => false
                    | b3 :: r3 =>
                        if (b0 =? 240)%nat then
                          between 144 191 b1 && continuation b2 && continuation b3
                          && well_formed r3
                        else if between 241 243 b0 then
                          continuation b1 && continuation b2 && continuation b3
                          && well_formed r3
                        else if (b0 =? 244)%nat then
                          between 128 143 b1 && continuation b2 && continuation b3
                          && well_formed r3
                        else false
                    end
              end
        end
  end.

Definition valid_utf8 (raw : string) : bool :=
  well_formed (map nat_of_ascii (list_ascii_of_string raw)).

(** [raw.decode()] *)
Definition decode (raw : string) : result string :=
  if valid_utf8 raw then Ok raw else Raise UnicodeDecodeError.

(** The byte string with the given byte values. *)
Definition bytes_of (codes : list Z) : string :=
  string_of_list_ascii (map (fun b => ascii_of_nat (Z.to_nat b)) codes).

(** What [json.loads] returns: [None], [bool], [int], [float] (kept as its
    text, with the one fact truthiness needs), [str], [list], [dict]. *)
Inductive value :=
| PyNone
| PyBool (b : bool)
| PyInt (n : Z)
| PyFloat (nonzero : bool) (text : string)
| PyStr (s : string)
| PyList (items : list value)
| PyDict (items : list (string * value)).

(** A header mapping: a [dict] from [str] to [str], in insertion order. *)
Abbreviation pydict := (list (string * string)) (only parsing).

Fixpoint dict_get (k : string) (d : pydict) : option string :=
  match d with
  | [] => None
  | (k', v) :: rest => if String.eqb k' k then Some v else dict_get k rest
  end.

(** [d[k] = v]: an existing key keeps its position, a new key goes last. *)
Fixpoint dict_set (k v : string) (d : pydict) : pydict :=
  match d with
  | [] => [(k, v)]
  | (k', v') :: rest =>
      if String.eqb k' k then (k', v) :: rest else (k', v') :: dict_set k v rest
  end.

(** The dict built by a literal [{k1: v1, ...}]. *)
Definition dict_literal (items : list (string * string)) : pydict :=
  fold_left (fun d kv => dict_set (fst kv) (snd kv) d) items [].

Abbreviation loc := positive (only parsing).

(** One reading of the clock, in the three forms the script uses:
    [datetime.now(timezone.utc).strftime("%Y-%m-%dT%H:%M:%SZ")],
    [str(time.time())] and [int(time.time())]. *)
Record timeval := {
  utc_iso : string;
  epoch_str : string;
  epoch_int : Z }.

Inductive event :=
| EPrint (line : string)
| ESleep (seconds : Z)
| ERequest (method url : string) (headers : pydict) (data : option string).

(** The world: the heap of live dicts, the clock and the network as scripts
    of what the k-th reading or the k-th request yields, and the trace of
    what the process has done so far. *)
Record World := {
  heap : gmap loc pydict;
  clock : nat -> timeval;
  ticks : nat;
  network : nat -> result string;
  sent : nat;
  trace : list event }.

Definition with_heap (h : gmap loc pydict) (w : World) : World :=
  {| heap := h; clock := clock w; ticks := ticks w;
     network := network w; sent := sent w; trace := trace w |}.

Definition with_ticks (n : nat) (w : World) : World :=
  {| heap := heap w; clock := clock w; ticks := n;
     network := network w; sent := sent w; trace := trace w |}.

Definition with_sent (n : nat) (w : World) : World :=
  {| heap := heap w; clock := clock w; ticks := ticks w;
     network := network w; sent := n; trace := trace w |}.

Definition with_trace (t : list event) (w : World) : World :=
  {| heap := heap w; clock := clock w; ticks := ticks w;
     network := network w; sent := sent w; trace := t |}.

(** *** The monad of the script: state that survives an exception *)

Definition M (A : Type) : Type := World -> World * result A.

Definition ret {A} (a : A) : M A := fun w => (w, Ok a).
Definition raise {A} (e : exn) : M A := fun w => (w, Raise e).
Definition bind {A B} (m : M A) (k : A -> M B) : M B :=
  fun w => match m w with
           | (w', Ok a) => k a w'
           | (w', Raise e) => (w', Raise e)
           end.
Definition lift {A} (r : result A) : M A := fun w => (w, r).

Declare Scope py_scope.
Delimit Scope py_scope with py.
Notation "x <- m ;; k" := (bind m (fun x => k))
  (at level 20, m at level 99, k at level 200, format "x  <-  m ;;  '/' k") : py_scope.
Notation "m ;;; k" := (bind m (fun _ => k))
  (at level 20, k at level 200, format "m ;;;  '/' k") : py_scope.
Local Open Scope py_scope.

(** [try: body  except urllib.error.HTTPError as e: handler(e)] *)
Definition try_except_HTTPError {A} (body : M A) (handler : Z -> string -> M A) : M A :=
  fun w => match body w with
           | (w', Raise (HTTPError code page)) => handler code page w'
           | r => r
           end.

(** *** Heap operations *)

Definition new_dict (d : pydict) : M loc :=
  fun w => let l := fresh (dom (heap w)) in (with_heap (<[l := d]> (heap w)) w, Ok l).

(** The dict at a location; the script only ever holds live locations. *)
Definition deref (l : loc) (w : World) : pydict := default [] (heap w !! l).

(** [headers[k] = v] *)
Definition setitem (l : loc) (k v : string) : M unit :=
  fun w => (with_heap (<[l := dict_set k v (deref l w)]> (heap w)) w, Ok tt).

(** [headers[k]] *)
Definition getitem (l : loc) (k : string) : M string :=
  fun w => match dict_get k (deref l w) with
           | Some v => (w, Ok v)
           | None => (w, Raise (KeyError k))
           end.

(** *** Clock, output and network *)

Definition read_clock : M timeval :=
  fun w => (with_ticks (S (ticks w)) w, Ok (clock w (ticks w))).

Definition emit (e : event) : M unit :=
  fun w => (with_trace (trace w ++ [e]) w, Ok tt).

Definition print (line : string) : M unit := emit (EPrint line).
Definition sleep (seconds : Z) : M unit := emit (ESleep seconds).

(** [urllib.request.urlopen(Request(url, data, headers, method), timeout=30)]
    followed by [resp.read()]: the request goes out with the headers as they
    are at that moment, and the network answers with the bytes of a body (a
    2xx status) or with an exception: [HTTPError], carrying the bytes of the
    error body, for any other status, [URLError] or [TimeoutError] when the
    transport fails. *)
Definition urlopen (method url : string) (headers : loc) (data : option string) : M string :=
  fun w =>
    let w1 := with_trace (trace w ++ [ERequest method url (deref headers w) data]) w in
    (with_sent (S (sent w)) w1, network w (sent w)).

(** ** The library functions the script calls *)

(** The named tuple [urllib.parse.urlparse] returns. *)
Record ParseResult := {
  scheme : string;
  netloc : string;
  path : string;
  params : string;
  query : string;
  fragment : string }.

Class Runtime := {
  (** [urllib.parse.urlparse(url)]; nothing for a URL it rejects *)
  urlparse : string -> option ParseResult;
  (** [hashlib.md5(data).hexdigest()] *)
  md5_hexdigest : Hashlib.bytes -> string;
  (** [json.loads(text)]; nothing for a text that is not JSON *)
  json_loads : string -> option value;
  (** [json.loads] is handed a [str], and a [str] is well-formed UTF-8 *)
  json_loads_str :
    forall (text : string) (v : value), json_loads text = Some v -> valid_utf8 text = true;
  (** [json.dumps(obj)] *)
  json_dumps : value -> string;
  (** [json.dumps(obj, indent=2, ensure_ascii=False)] *)
  json_dumps_indent : value -> string;
  (** [str(obj)] of a number or a container *)
  py_repr : value -> string }.

(** [urllib.parse.urlparse(url)], with the [ValueError] of a rejected URL. *)
Definition py_urlparse {rt : Runtime} (url : string) : result ParseResult :=
  match urlparse url with
  | Some p => Ok p
  | None => Raise (ValueError "Invalid URL")
  end.

(** [json.loads(text)], with the [JSONDecodeError] of a malformed text. *)
Definition py_json_loads {rt : Runtime} (text : string) : result value :=
  match json_loads text with
  | Some v => Ok v
  | None => Raise (JSONDecodeError "Expecting value")
  end.

(** ** Operations on parsed JSON *)

(** Truth value of an object, as [if obj:] tests it. *)
Definition truthy (v : value) : bool :=
  match v with
  | PyNone => false
  | PyBool b => b
  | PyInt n => negb (Z.eqb n 0)
  | PyFloat nonzero _ => nonzero
  | PyStr s => negb (String.eqb s "")
  | PyList items => negb (Nat.eqb (length items) 0)
  | PyDict items => negb (Nat.eqb (length items) 0)
  end.

Fixpoint items_get (k : string) (items : list (string * value)) : option value :=
  match items with
  | [] => None
  | (k', v) :: rest => if String.eqb k' k then Some v else items_get k rest
  end.

Fixpoint is_substring (k s : string) : bool :=
  String.prefix k s ||
  match s with
  | EmptyString => false
  | String _ s' => is_substring k s'
  end.

(** [obj == "text"] *)
Definition equals_str (v : value) (text : string) : bool :=
  match v with
  | PyStr s => String.eqb s text
  | _ => false
  end.

(** ["key" in obj] *)
Definition contains (k : string) (v : value) : result bool :=
  match v with
  | PyDict items => Ok (match items_get k items with Some _ => true | None => false end)
  | PyList items => Ok (existsb (fun x => equals_str x k) items)
  | PyStr s => Ok (is_substring k s)
  | _ => Raise (TypeError "argument is not iterable")
  end.

(** [obj["key"]] *)
Definition subscript (v : value) (k : string) : result value :=
  match v with
  | PyDict items =>
      match items_get k items with
      | Some x => Ok x
      | None => Raise (KeyError k)
      end
  | PyList _ | PyStr _ => Raise (TypeError "indices must be integers")
  | _ => Raise (TypeError "object is not subscriptable")
  end.

(** [obj.get("key", dflt)] *)
Definition method_get (v : value) (k : string) (dflt : value) : result value :=
  match v with
  | PyDict items => Ok (default dflt (items_get k items))
  | _ => Raise (AttributeError "get")
  end.

(** ** The script *)

Definition nl : string := String "010"%char EmptyString.

(** [a or b] on strings *)
Definition str_or (a b : string) : string :=
  if String.eqb a "" then b else a.

(** Lines 15-17: the three module-level credentials. *)
Record Credentials := {
  ACCESS_KEY_ID : string;
  ACCESS_KEY_SECRET : string;
  APP_KEY : string }.

Section Script.

Context {rt : Runtime}.
Variable cred : Credentials.

(** How an f-string prints a parsed JSON value. *)
Definition format_value (v : value) : string :=
  match v with
  | PyStr s => s
  | PyNone => "None"
  | PyBool true => "True"
  | PyBool false => "False"
  | _ => py_repr v
  end.

(** *** sign (lines 19-57) *)

(** line 28 *)
Definition signed_headers : string :=
  "host;x-acs-action;x-acs-content-sha256;x-acs-date;x-acs-signature-nonce;x-acs-version".

(** line 30 *)
Definition body_hash (body : option string) : string :=
  Hashlib.sha256_hexdigest (Hashlib.encode (str_or (default "" body) "")).

(** lines 33-40: the list is built left to right, so the first missing
    header is the one the [KeyError] names. *)
Definition canonical_headers (host bhash : string) (headers : loc) : M string :=
  action <- getitem headers "x-acs-action" ;;
  date <- getitem headers "x-acs-date" ;;
  nonce <- getitem headers "x-acs-signature-nonce" ;;
  version <- getitem headers "x-acs-version" ;;
  ret (String.concat nl
         [ "host:" +:+ host;
           "x-acs-action:" +:+ action;
           "x-acs-content-sha256:" +:+ bhash;
           "x-acs-date:" +:+ date;
           "x-acs-signature-nonce:" +:+ nonce;
           "x-acs-version:" +:+ version ]).

(** line 42 *)
Definition canonical_request
    (method canonical_uri canonical_query cheaders bhash : string) : string :=
  method +:+ nl +:+ canonical_uri +:+ nl +:+ canonical_query +:+ nl +:+
  cheaders +:+ nl +:+ nl +:+ signed_headers +:+ nl +:+ bhash.

(** lines 45-46 *)
Definition string_to_sign (crequest : string) : string :=
  "ACS3-HMAC-SHA256" +:+ nl +:+ Hashlib.sha256_hexdigest (Hashlib.encode crequest).

(** lines 49-53 *)
Definition signature (to_sign : string) : string :=
  Hashlib.hmac_sha256_hexdigest
    (Hashlib.encode (ACCESS_KEY_SECRET cred)) (Hashlib.encode to_sign).

(** line 55 *)
Definition authorization (sig : string) : string :=
  "ACS3-HMAC-SHA256 Credential=" +:+ ACCESS_KEY_ID cred +:+
  ",SignedHeaders=" +:+ signed_headers +:+ ",Signature=" +:+ sig.

Definition sign (method url : string) (headers : loc) (body : option string) : M loc :=
  parsed <- lift (py_urlparse url) ;;
  let canonical_uri := str_or (path parsed) "/" in
  let canonical_query := str_or (query parsed) "" in
  let bhash := body_hash body in
  setitem headers "x-acs-content-sha256" bhash ;;;
  cheaders <- canonical_headers (netloc parsed) bhash headers ;;
  let crequest := canonical_request method canonical_uri canonical_query cheaders bhash in
  setitem headers "Authorization" (authorization (signature (string_to_sign crequest))) ;;;
  ret headers.

(** *** create_task (lines 59-96) *)

Definition endpoint : string := "https://tingwu.cn-beijing.aliyuncs.com/".

Definition create_task_body (file_url : string) (task_key : Z) : value :=
  PyDict
    [ ("AppKey", PyStr (APP_KEY cred));
      ("Input", PyDict [ ("SourceLanguage", PyStr "en");
                         ("FileUrl", PyStr file_url);
                         ("TaskKey", PyStr ("task_" +:+ pretty task_key)) ]);
      ("Parameters",
        PyDict [ ("Transcription",
                   PyDict [ ("DiarizationEnabled", PyBool true);
                            ("Diarization", PyDict [ ("SpeakerCount", PyInt 0) ]) ]) ]) ].

Definition create_task (file_url : string) : M value :=
  let url := endpoint in
  now <- read_clock ;;
  t <- read_clock ;;
  headers <- new_dict (dict_literal
    [ ("Content-Type", "application/json");
      ("x-acs-action", "CreateTask");
      ("x-acs-version", "2023-09-30");
      ("x-acs-date", utc_iso now);
      ("x-acs-signature-nonce", md5_hexdigest (Hashlib.encode (epoch_str t))) ]) ;;
  t' <- read_clock ;;
  let body := json_dumps (create_task_body file_url (epoch_int t')) in
  headers <- sign "POST" url headers (Some body) ;;
  try_except_HTTPError
    (raw <- urlopen "POST" url headers (Some body) ;;
     text <- lift (decode raw) ;;
     lift (py_json_loads text))
    (fun code raw =>
       print ("HTTP Error: " +:+ pretty code) ;;;
       page <- lift (decode raw) ;;
       print page ;;;
       ret PyNone).

(** *** get_task (lines 98-119) *)

Definition get_task (task_id : value) : M value :=
  let url := endpoint +:+ "?TaskId=" +:+ format_value task_id in
  now <- read_clock ;;
  t <- read_clock ;;
  headers <- new_dict (dict_literal
    [ ("x-acs-action", "GetTaskInfo");
      ("x-acs-version", "2023-09-30");
      ("x-acs-date", utc_iso now);
      ("x-acs-signature-nonce", md5_hexdigest (Hashlib.encode (epoch_str t))) ]) ;;
  headers <- sign "GET" url headers None ;;
  try_except_HTTPError
    (raw <- urlopen "GET" url headers None ;;
     text <- lift (decode raw) ;;
     lift (py_json_loads text))
    (fun code raw =>
       print ("HTTP Error: " +:+ pretty code) ;;;
       page <- lift (decode raw) ;;
       print page ;;;
       ret PyNone).

(** *** The main block (lines 121-151) *)

Inductive control := Continue | Break.

(** One turn of the [while True] loop, lines 139-151. *)
Definition poll_once (task_id : value) : M control :=
  sleep 10 ;;;
  status <- get_task task_id ;;
  if truthy status then
    data <- lift (method_get status "Data" (PyDict [])) ;;
    task_status <- lift (method_get data "TaskStatus" PyNone) ;;
    print ("Status: " +:+ format_value task_status) ;;;
    if equals_str task_status "COMPLETED" then
      print (json_dumps_indent status) ;;;
      ret Break
    else if equals_str task_status "FAILED" then
      print "Task failed!" ;;;
      print (json_dumps_indent status) ;;;
      ret Break
    else ret Continue
  else ret Continue.

(** Where the process stands after a bounded number of turns: it has left
    the loop, or it is still polling. *)
Inductive progress := Finished | Polling.

Fixpoint poll_loop (turns : nat) (task_id : value) : M progress :=
  match turns with
  | O => ret Polling
  | S turns' =>
      c <- poll_once task_id ;;
      match c with
      | Break => ret Finished
      | Continue => poll_loop turns' task_id
      end
  end.

Definition main (turns : nat) (argv : list string) : M progress :=
  if (length argv <? 2)%nat then
    print "Usage: python tingwu_transcribe.py <file_url>" ;;;
    raise (SystemExit 1)
  else
    let file_url := nth 1 argv "" in
    print ("Creating task for: " +:+ file_url) ;;;
    result <- create_task file_url ;;
    if truthy result then
      print (json_dumps_indent result) ;;;
      has_data <- lift (contains "Data" result) ;;
      has_id <- (if has_data then
                   data <- lift (subscript result "Data") ;;
                   lift (contains "TaskId" data)
                 else ret false) ;;
      if has_id then
        data <- lift (subscript result "Data") ;;
        task_id <- lift (subscript data "TaskId") ;;
        print (nl +:+ "Task ID: " +:+ format_value task_id) ;;;
        print "Polling for result..." ;;;
        poll_loop turns task_id
      else ret Finished
    else ret Finished.

End Script.

(** ** Lines 15-17 as Python reads them

    The module is compiled before any of its statements runs.  The text to
    the right of each [=] is kept here as the tokens the lexer makes of it:
    in line 15, the string literal ["os.environ.get("], the name
    [ALIYUN_ACCESS_KEY_ID], the string literal [", "] and the string literal
    [")"]. *)

Module Startup.

Inductive token :=
| STRING (text : string)
| NAME (id : string).

(** line 15 *)
Definition access_key_id_tokens : list token :=
  [ STRING "os.environ.get("; NAME "ALIYUN_ACCESS_KEY_ID"; STRING ", "; STRING ")" ].

(** line 16 *)
Definition access_key_secret_tokens : list token :=
  [ STRING "os.environ.get("; NAME "ALIYUN_ACCESS_KEY_SECRET"; STRING ", "; STRING ")" ].

(** line 17 *)
Definition app_key_tokens : list token :=
  [ STRING "os.environ.get("; NAME "TINGWU_APP_KEY"; STRING ", "; STRING ")" ].

Inductive atom :=
| Literal (text : string)
| Global (id : string).

(** Adjacent string literals make one string. *)
Fixpoint strings (ts : list token) : option string :=
  match ts with
  | [] => Some ""
  | STRING text :: rest =>
      match strings rest with
      | Some t => Some (text +:+ t)
      | None => None
      end
  | NAME _ :: _ => None
  end.

(** The grammar of an atom, [NAME | STRING+]: a name next to a string
    literal is not an expression. *)
Definition parse (ts : list token) : option atom :=
  match ts with
  | [] => None
  | [NAME id] => Some (Global id)
  | NAME _ :: _ => None
  | STRING _ :: _ =>
      match strings ts with
      | Some text => Some (Literal text)
      | None => None
      end
  end.

(** The value of a parsed right-hand side; the module defines no global
    before line 15. *)
Definition evaluate (a : atom) : result string :=
  match a with
  | Literal text => Ok text
  | Global id => Raise (NameError id)
  end.

(** [os.environ]: the variables that are set. *)
Abbreviation environ := (gmap string string) (only parsing).

(** The credentials the process starts with under an environment: nothing
    is bound unless the three lines compile. *)
Definition credentials (env : environ) : result Credentials :=
  match parse access_key_id_tokens,
        parse access_key_secret_tokens,
        parse app_key_tokens with
  | Some a, Some b, Some c =>
      match evaluate a, evaluate b, evaluate c with
      | Ok id, Ok secret, Ok app =>
          Ok {| ACCESS_KEY_ID := id; ACCESS_KEY_SECRET := secret; APP_KEY := app |}
      | Raise e, _, _ | _, Raise e, _ | _, _, Raise e => Raise e
      end
  | _, _, _ => Raise SyntaxError
  end.

(** What the specification expects: [os.environ.get(name, "")] for each of
    the three names. *)
Definition spec_credentials (env : environ) : Credentials := {|
  ACCESS_KEY_ID := default "" (env !! "ALIYUN_ACCESS_KEY_ID");
  ACCESS_KEY_SECRET := default "" (env !! "ALIYUN_ACCESS_KEY_SECRET");
  APP_KEY := default "" (env !! "TINGWU_APP_KEY") |}.

End Startup.

(** ** A reference runtime

    An instance of [Runtime] to run the script on concrete inputs.
    [Urllib.urlparse] follows [urllib.parse.urlparse] on ASCII URLs whose
    host is not a bracketed address; the JSON functions cover documents
    without escapes; the nonce is a fixed digest. *)

Module Urllib.

Definition is_alpha (c : ascii) : bool :=
  let n := nat_of_ascii c in
  ((65 <=? n) && (n <=? 90) || (97 <=? n) && (n <=? 122))%nat.

Definition is_digit (c : ascii) : bool :=
  let n := nat_of_ascii c in ((48 <=? n) && (n <=? 57))%nat.

Definition is_scheme_char (c : ascii) : bool :=
  is_alpha c || is_digit c ||
  Ascii.eqb c "+" || Ascii.eqb c "-" || Ascii.eqb c ".".

Definition lower (c : ascii) : ascii :=
  let n := nat_of_ascii c in
  if ((65 <=? n) && (n <=? 90))%nat then ascii_of_nat (n + 32) else c.

(** The part of [s] before the first character satisfying [p], and the
    rest, which starts with that character when there is one. *)
Fixpoint break (p : ascii -> bool) (s : list ascii) : list ascii * list ascii :=
  match s with
  | [] => ([], [])
  | c :: s' =>
      if p c then ([], s)
      else let '(a, b) := break p s' in (c :: a, b)
  end.

(** [s.split(c, 1)] when [c] occurs in [s]. *)
Definition split_once (c : ascii) (s : list ascii) : list ascii * list ascii :=
  let '(a, b) := break (Ascii.eqb c) s in (a, tl b).

Definition uses_params : list string :=
  [ ""; "ftp"; "hdl"; "prospero"; "http"; "imap"; "https"; "shttp"; "rtsp";
    "rtspu"; "sip"; "sips"; "mms"; "sftp"; "tel" ].

(** [_splitparams]: the parameters follow the first [;] of the last
    path segment. *)
Definition splitparams (url : list ascii) : list ascii * list ascii :=
  let '(rlast, rdir) := break (Ascii.eqb "/") (rev url) in
  let '(seg, prm) := break (Ascii.eqb ";") (rev rlast) in
  (rev rdir ++ seg, tl prm).

Definition has (c : ascii) (s : list ascii) : bool := existsb (Ascii.eqb c) s.

Definition urlparse (url : string) : option ParseResult :=
  let u := list_ascii_of_string url in
  let '(pre, post) := break (Ascii.eqb ":") u in
  let '(sch, u1) :=
    match pre, post with
    | c :: _, _ :: rest =>
        if is_alpha c && forallb is_scheme_char pre then (map lower pre, rest)
        else ([], u)
    | _, _ => ([], u)
    end in
  let '(loc, u2) :=
    match u1 with
    | "/"%char :: "/"%char :: rest =>
        break (fun c => Ascii.eqb c "/" || Ascii.eqb c "?" || Ascii.eqb c "#") rest
    | _ => ([], u1)
    end in
  if xorb (has "[" loc) (has "]" loc) then None
  else
    let '(u3, frag) := split_once "#" u2 in
    let '(u4, qry) := split_once "?" u3 in
    let '(pth, prm) :=
      if existsb (String.eqb (string_of_list_ascii sch)) uses_params && has ";" u4
      then splitparams u4 else (u4, []) in
    Some {| scheme := string_of_list_ascii sch;
          netloc := string_of_list_ascii loc;
          path := string_of_list_ascii pth;
          params := string_of_list_ascii prm;
          query := string_of_list_ascii qry;
          fragment := string_of_list_ascii frag |}.

End Urllib.

Module Demo.

Definition dq : string := String "034"%char EmptyString.
Definition quoted (s : string) : string := dq +:+ s +:+ dq.

(** [json.dumps] with the default separators. *)
Fixpoint dumps (v : value) : string :=
  match v with
  | PyNone => "null"
  | PyBool true => "true"
  | PyBool false => "false"
  | PyInt n => pretty n
  | PyFloat _ text => text
  | PyStr s => quoted s
  | PyList items => "[" +:+ String.concat ", " (map dumps items) +:+ "]"
  | PyDict items =>
      "{" +:+ String.concat ", "
                (map (fun kv => let '(k, x) := kv in quoted k +:+ ": " +:+ dumps x) items)
      +:+ "}"
  end.

(** The responses of the service used in the examples. *)
Definition created (task_id : string) : value :=
  PyDict [ ("Data", PyDict [ ("TaskId", PyStr task_id) ]) ].
Definition reported (task_status : string) : value :=
  PyDict [ ("Data", PyDict [ ("TaskStatus", PyStr task_status) ]) ].

Definition documents : list value :=
  [ created "t-1"; reported "PENDING"; reported "RUNNING";
    reported "COMPLETED"; reported "FAILED"; PyDict []; PyNone ].

(** [json.loads] on the documents above. *)
Definition loads (text : string) : option value :=
  find (fun v => String.eqb (dumps v) text) documents.

(** Each of these documents is written in ASCII. *)
Definition loads_str (text : string) (v : value) :
  loads text = Some v -> valid_utf8 text = true.
Proof.
  unfold loads. intros H. apply find_some in H. destruct H as [Hin Heq].
  apply String.eqb_eq in Heq. subst text.
  repeat (destruct Hin as [<-|Hin]; [vm_compute; reflexivity|]).
  destruct Hin.
Qed.

#[export] Instance runtime : Runtime := {|
  urlparse := Urllib.urlparse;
  md5_hexdigest := fun _ => "0cc175b9c0f1b6a831c399e269772661";
  json_loads := loads;
  json_loads_str := loads_str;
  json_dumps := dumps;
  json_dumps_indent := dumps;
  py_repr := dumps |}.

Definition cred : Credentials := {|
  ACCESS_KEY_ID := "LTAI-demo-id";
  ACCESS_KEY_SECRET := "demo-secret";
  APP_KEY := "demo-app" |}.

Definition noon : timeval := {|
  utc_iso := "2024-01-01T12:00:00Z";
  epoch_str := "1704110400.0";
  epoch_int := 1704110400 |}.

(** A world with an empty heap where the k-th request gets [replies k]. *)
Definition world (replies : nat -> result string) : World := {|
  heap := ∅;
  clock := fun _ => noon;
  ticks := 0;
  network := replies;
  sent := 0;
  trace := [] |}.

(** The headers [get_task] builds, and a world holding them at location 1. *)
Definition query_headers : pydict :=
  [ ("x-acs-action", "GetTaskInfo");
    ("x-acs-version", "2023-09-30");
    ("x-acs-date", "2024-01-01T12:00:00Z");
    ("x-acs-signature-nonce", "0cc175b9c0f1b6a831c399e269772661") ].

Definition holding (d : pydict) : World := {|
  heap := {[ 1%positive := d ]};
  clock := fun _ => noon;
  ticks := 0;
  network := fun _ => Raise TimeoutError;
  sent := 0;
  trace := [] |}.

Definition status_url : string :=
  "https://tingwu.cn-beijing.aliyuncs.com/?TaskId=t-1".

Definition status_parsed : ParseResult := {|
  scheme := "https";
  netloc := "tingwu.cn-beijing.aliyuncs.com";
  path := "/";
  params := "";
  query := "TaskId=t-1";
  fragment := "" |}.

(** The replies of a list, then in-progress reports for ever. *)
Definition script (replies : list (result string)) : nat -> result string :=
  fun k => nth k replies (Ok (dumps (reported "RUNNING"))).

End Demo.

(** More answers of the service, for the runs that end badly: a bare
    number, an object whose [Data] is [null], an error report without
    [Data]. *)
Module Samples.

Definition documents : list value :=
  Demo.documents ++
  [ PyInt 42;
    PyDict [ ("Data", PyNone) ];
    PyDict [ ("Code", PyStr "InvalidParameter") ] ].

Definition loads (text : string) : option value :=
  find (fun v => String.eqb (Demo.dumps v) text) documents.

Definition loads_str (text : string) (v : value) :
  loads text = Some v -> valid_utf8 text = true.
Proof.
  unfold loads. intros H. apply find_some in H. destruct H as [Hin Heq].
  apply String.eqb_eq in Heq. subst text.
  repeat (destruct Hin as [<-|Hin]; [vm_compute; reflexivity|]).
  destruct Hin.
Qed.

#[export] Instance runtime : Runtime := {|
  urlparse := Urllib.urlparse;
  md5_hexdigest := fun _ => "0cc175b9c0f1b6a831c399e269772661";
  json_loads := loads;
  json_loads_str := loads_str;
  json_dumps := Demo.dumps;
  json_dumps_indent := Demo.dumps;
  py_repr := Demo.dumps |}.

Definition endpoint_parsed : ParseResult := {|
  scheme := "https";
  netloc := "tingwu.cn-beijing.aliyuncs.com";
  path := "/";
  params := "";
  query := "";
  fragment := "" |}.

Definition argv : list string :=
  [ "tingwu_transcribe.py"; "https://example.com/a.mp3" ].

End Samples.
(** ** The vocabulary of the specification *)

(** The six signed header names, in the order the specification fixes. *)
Definition signed_header_names : list string :=
  [ "host"; "x-acs-action"; "x-acs-content-sha256"; "x-acs-date";
    "x-acs-signature-nonce"; "x-acs-version" ].

(** The four headers a caller of [sign] must supply. *)
Definition required_headers : list string :=
  [ "x-acs-action"; "x-acs-date"; "x-acs-signature-nonce"; "x-acs-version" ].

(** Newline-joined [name:value] pairs of the signed headers. *)
Definition spec_header_block (values : list string) : string :=
  String.concat nl
    (zip_with (fun name v => name +:+ ":" +:+ v) signed_header_names values).

(** METHOD, PATH, QUERY, the header block, a blank line, the signed header
    names and the body hash, joined by newlines. *)
Definition spec_canonical_request
    (method upath uquery block names bhash : string) : string :=
  String.concat nl [ method; upath; uquery; block; ""; names; bhash ].

(** The first required header a mapping lacks, in the order [sign] reads them. *)
Definition first_missing (d : pydict) : option string :=
  find (fun k => match dict_get k d with Some _ => false | None => true end)
       required_headers.

Section SignedMapping.

Variable cred : Credentials.

(** The value [sign] stores under [Authorization], from the parsed URL and
    the values of the four required headers. *)
Definition authorization_for
    (method : string) (p : ParseResult) (body : option string)
    (a dt n v : string) : string :=
  authorization cred (signature cred (string_to_sign
    (canonical_request method (str_or (path p) "/") (str_or (query p) "")
       (spec_header_block [netloc p; a; body_hash body; dt; n; v])
       (body_hash body)))).

(** The mapping [sign] leaves at the location of [headers]. *)
Definition signed_dict
    (method : string) (p : ParseResult) (body : option string)
    (a dt n v : string) (d : pydict) : pydict :=
  dict_set "Authorization" (authorization_for method p body a dt n v)
    (dict_set "x-acs-content-sha256" (body_hash body) d).

End SignedMapping.

(** The SHA-256 digest of the empty string. *)
Definition empty_sha256 : string :=
  "e3b0c44298fc1c149afbf4c8996fb92427ae41e4649b934ca495991b7852b855".

(** Lowercase hexadecimal digits, and the strings made of them. *)
Definition is_lower_hex (c : ascii) : bool :=
  let n := nat_of_ascii c in
  ((48 <=? n) && (n <=? 57) || (97 <=? n) && (n <=? 102))%nat.

Definition lower_hex (s : string) : Prop :=
  Forall (fun c => is_lower_hex c = true) (list_ascii_of_string s).

(** What the process does to the outside, prints left out. *)
Inductive action :=
| Slept (seconds : Z)
| Requested (method url : string).

Definition action_of (e : event) : option action :=
  match e with
  | EPrint _ => None
  | ESleep seconds => Some (Slept seconds)
  | ERequest method url _ _ => Some (Requested method url)
  end.

Definition actions (t : list event) : list action := omap action_of t.

(** The URL of the status query for a job. *)
Definition status_query {rt : Runtime} (task_id : value) : string :=
  endpoint +:+ "?TaskId=" +:+ format_value task_id.

(** What one turn of the polling loop does: wait ten seconds, then query
    the status of the job. *)
Definition turn_actions {rt : Runtime} (task_id : value) : list action :=
  [ Slept 10; Requested "GET" (status_query task_id) ].

Section Replies.

Context {rt : Runtime}.

(** What [create_task] and [get_task] make of the answer of the network:
    the decoded and parsed body; after an HTTP error status, [None] when the
    error body decodes and [UnicodeDecodeError] when it does not; and the
    exception itself for anything else. *)
Definition call_outcome (reply : result string) : result value :=
  match reply with
  | Ok raw => if valid_utf8 raw then py_json_loads raw else Raise UnicodeDecodeError
  | Raise (HTTPError _ raw) =>
      if valid_utf8 raw then Ok PyNone else Raise UnicodeDecodeError
  | Raise e => Raise e
  end.

(** What they print about it: the status line, then the error body when it
    decodes. *)
Definition error_report (reply : result string) : list event :=
  match reply with
  | Raise (HTTPError code raw) =>
      EPrint ("HTTP Error: " +:+ pretty code)
      :: (if valid_utf8 raw then [ EPrint raw ] else [])
  | _ => []
  end.

(** The status a response reports: the [TaskStatus] field of its [Data]
    object. *)
Definition reported_status (status : value) : option value :=
  match status with
  | PyDict items =>
      match items_get "Data" items with
      | Some (PyDict data) => items_get "TaskStatus" data
      | _ => None
      end
  | _ => None
  end.

(** A poll that reports COMPLETED or FAILED. *)
Inductive terminal : result string -> Prop :=
| terminal_status (text : string) (status ts : value) :
    json_loads text = Some status ->
    reported_status status = Some ts ->
    ts = PyStr "COMPLETED" \/ ts = PyStr "FAILED" ->
    terminal (Ok text).

(** A poll after which the job counts as still running: the service
    answered with an HTTP error status and a body that decodes, with an
    empty document, with a document that has no status field, or with
    another status value. *)
Inductive in_progress : result string -> Prop :=
| http_error_status (code : Z) (page : string) :
    valid_utf8 page = true ->
    in_progress (Raise (HTTPError code page))
| empty_document (text : string) (status : value) :
    json_loads text = Some status ->
    truthy status = false ->
    in_progress (Ok text)
| missing_data (text : string) (items : list (string * value)) :
    json_loads text = Some (PyDict items) ->
    items_get "Data" items = None ->
    in_progress (Ok text)
| missing_status (text : string) (items data : list (string * value)) :
    json_loads text = Some (PyDict items) ->
    items_get "Data" items = Some (PyDict data) ->
    items_get "TaskStatus" data = None ->
    in_progress (Ok text)
| other_status (text : string) (items data : list (string * value)) (ts : value) :
    json_loads text = Some (PyDict items) ->
    items_get "Data" items = Some (PyDict data) ->
    items_get "TaskStatus" data = Some ts ->
    ts <> PyStr "COMPLETED" ->
    ts <> PyStr "FAILED" ->
    in_progress (Ok text).

(** A failure of the transport: the call raised something else than an
    HTTP error status. *)
Definition transport_failure (e : exn) : Prop :=
  match e with
  | URLError _ | TimeoutError => True
  | _ => False
  end.

(** How one turn of the loop ends, as a function of the answer to its
    poll. *)
Definition turn_outcome (reply : result string) : result control :=
  match call_outcome reply with
  | Raise e => Raise e
  | Ok status =>
      if truthy status then
        match method_get status "Data" (PyDict []) with
        | Raise e => Raise e
        | Ok data =>
            match method_get data "TaskStatus" PyNone with
            | Raise e => Raise e
            | Ok ts =>
                if equals_str ts "COMPLETED" || equals_str ts "FAILED"
                then Ok Break else Ok Continue
            end
        end
      else Ok Continue
  end.

End Replies.

(** The job identifier the main block finds in a response, lines 133-134:
    the two membership tests, then the two subscripts. *)
Definition job_of (resp : value) : result (option value) :=
  match contains "Data" resp with
  | Raise e => Raise e
  | Ok false => Ok None
  | Ok true =>
      match subscript resp "Data" with
      | Raise e => Raise e
      | Ok data =>
          match contains "TaskId" data with
          | Raise e => Raise e
          | Ok false => Ok None
          | Ok true =>
              match subscript data "TaskId" with
              | Raise e => Raise e
              | Ok task_id => Ok (Some task_id)
              end
          end
      end
  end.

(** A computation that leaves every mapping of the heap it starts from as
    it finds it. *)
Definition preserves_heap {A : Type} (m : M A) : Prop :=
  forall (w : World) (l : loc) (d : pydict),
    heap w !! l = Some d -> heap (fst (m w)) !! l = Some d.

(** A computation that only adds to the trace, and only events that
    satisfy [P]. *)
Definition emits {A : Type} (P : event -> Prop) (m : M A) : Prop :=
  forall w : World,
    exists evs : list event,
      trace (fst (m w)) = trace w ++ evs /\ Forall P evs.

Section WellSigned.

Context {rt : Runtime}.
Variable cred : Credentials.

(** A request whose signature matches what it carries: its URL parses, it
    has the four required headers, its content hash is the hash of its own
    body, and its [Authorization] is the value [sign] computes from its own
    method, URL, body and header values. *)
Definition well_signed (e : event) : Prop :=
  match e with
  | ERequest method url hdrs data =>
      exists (p : ParseResult) (a dt n v : string),
        urlparse url = Some p /\
        dict_get "x-acs-action" hdrs = Some a /\
        dict_get "x-acs-date" hdrs = Some dt /\
        dict_get "x-acs-signature-nonce" hdrs = Some n /\
        dict_get "x-acs-version" hdrs = Some v /\
        dict_get "x-acs-content-sha256" hdrs = Some (body_hash data) /\
        dict_get "Authorization" hdrs
        = Some (authorization_for cred method p data a dt n v)
  | EPrint _ | ESleep _ => True
  end.

End WellSigned.

(** A value that is neither a string nor a container: [in] and [.get] have
    no meaning on it. *)
Definition scalar (v : value) : Prop :=
  match v with
  | PyNone | PyBool _ | PyInt _ | PyFloat _ _ => True
  | PyStr _ | PyList _ | PyDict _ => False
  end.

Definition is_dict (v : value) : Prop :=
  match v with
  | PyDict _ => True
  | _ => False
  end.

(** * Properties *)

(** ** Test vectors of the hash functions *)

Example sha256_abc :
  Hashlib.sha256_hexdigest (Hashlib.encode "abc")
  = "ba7816bf8f01cfea414140de5dae2223b00361a396177a9cb410ff61f20015ad".
Proof. vm_compute. reflexivity. Qed.

Example sha256_two_blocks :
  Hashlib.sha256_hexdigest
    (Hashlib.encode "abcdbcdecdefdefgefghfghighijhijkijkljklmklmnlmnomnopnopq")
  = "248d6a61d20638b8e5c026930c3e6039a33ce45964ff2167f6ecedd419db06c1".
Proof. vm_compute. reflexivity. Qed.

Example hmac_sha256_fox :
  Hashlib.hmac_sha256_hexdigest (Hashlib.encode "key")
    (Hashlib.encode "The quick brown fox jumps over the lazy dog")
  = "f7bc83f430538424b13298e6aa6fb143ef4d59a14946175997479dbc2d1a3cd8".
Proof. vm_compute. reflexivity. Qed.

Arguments Hashlib.sha256_hexdigest : simpl never.
Arguments Hashlib.hmac_sha256_hexdigest : simpl never.

(** ** Digests are sixty-four lowercase hexadecimal characters *)

Lemma length_of_chars (l : list ascii) :
  String.length (string_of_list_ascii l) = length l.
Proof. induction l as [|c l IH]; simpl; congruence. Qed.

Lemma append_cons (c : ascii) (s t : string) :
  String c s +:+ t = String c (s +:+ t).
Proof. reflexivity. Qed.

Lemma length_append (s t : string) :
  String.length (s +:+ t) = (String.length s + String.length t)%nat.
Proof.
  induction s as [|c s IH]; [reflexivity|].
  rewrite append_cons. simpl. congruence.
Qed.

Lemma chars_append (s t : string) :
  list_ascii_of_string (s +:+ t) = list_ascii_of_string s ++ list_ascii_of_string t.
Proof.
  induction s as [|c s IH]; [reflexivity|].
  rewrite append_cons. simpl. congruence.
Qed.

Lemma lower_hex_append (s t : string) :
  lower_hex s -> lower_hex t -> lower_hex (s +:+ t).
Proof.
  unfold lower_hex. intros Hs Ht. rewrite chars_append.
  apply Forall_app. split; assumption.
Qed.

Lemma hex_digit_lower (n : Z) :
  0 <= n < 16 -> is_lower_hex (Hashlib.hex_digit n) = true.
Proof.
  intros Hn.
  assert (Hcases : exists k : nat, (k < 16)%nat /\ n = Z.of_nat k).
  { exists (Z.to_nat n). split; lia. }
  destruct Hcases as (k & Hk & ->).
  do 16 (destruct k as [|k]; [reflexivity|]). lia.
Qed.

Lemma nibble_range (x i : Z) : 0 <= Z.land (Z.shiftr x i) 0xF < 16.
Proof.
  change 0xF with (Z.ones 4). rewrite Z.land_ones by lia.
  apply Z.mod_pos_bound. reflexivity.
Qed.

Lemma hex_word_length (x : Z) : String.length (Hashlib.hex_word x) = 8%nat.
Proof.
  unfold Hashlib.hex_word.
  rewrite length_of_chars, length_map, length_rev, length_seq. reflexivity.
Qed.

Lemma hex_word_lower (x : Z) : lower_hex (Hashlib.hex_word x).
Proof.
  unfold lower_hex, Hashlib.hex_word.
  rewrite list_ascii_of_string_of_list_ascii.
  apply Forall_map, Forall_forall. intros i _.
  apply hex_digit_lower, nibble_range.
Qed.

Lemma hex_of_state_length (s : Hashlib.state) :
  String.length (Hashlib.hex_of_state s) = 64%nat.
Proof.
  unfold Hashlib.hex_of_state.
  repeat rewrite length_append. repeat rewrite hex_word_length. reflexivity.
Qed.

Lemma hex_of_state_lower (s : Hashlib.state) : lower_hex (Hashlib.hex_of_state s).
Proof.
  unfold Hashlib.hex_of_state.
  repeat (apply lower_hex_append; [apply hex_word_lower|]).
  apply hex_word_lower.
Qed.

Lemma sha256_hexdigest_shape (msg : Hashlib.bytes) :
  String.length (Hashlib.sha256_hexdigest msg) = 64%nat /\
  lower_hex (Hashlib.sha256_hexdigest msg).
Proof. split; [apply hex_of_state_length | apply hex_of_state_lower]. Qed.

Lemma hmac_hexdigest_shape (key msg : Hashlib.bytes) :
  String.length (Hashlib.hmac_sha256_hexdigest key msg) = 64%nat /\
  lower_hex (Hashlib.hmac_sha256_hexdigest key msg).
Proof. split; [apply hex_of_state_length | apply hex_of_state_lower]. Qed.

(** ** Header mappings *)

Lemma dict_get_set_eq (k v : string) (d : pydict) :
  dict_get k (dict_set k v d) = Some v.
Proof.
  induction d as [|[k' v'] d IH]; simpl.
  - rewrite String.eqb_refl. reflexivity.
  - destruct (String.eqb k' k) eqn:E; simpl; rewrite E; auto.
Qed.

Lemma dict_get_set_ne (k k' v : string) (d : pydict) :
  k <> k' -> dict_get k' (dict_set k v d) = dict_get k' d.
Proof.
  intros Hne. induction d as [|[k0 v0] d IH]; simpl.
  - apply String.eqb_neq in Hne. rewrite Hne. reflexivity.
  - destruct (String.eqb k0 k) eqn:E; simpl.
    + apply String.eqb_eq in E. subst k0.
      apply String.eqb_neq in Hne. rewrite Hne. reflexivity.
    + destruct (String.eqb k0 k'); auto.
Qed.

Lemma dict_get_not_key (k : string) (d : pydict) :
  ~ In k (map fst d) -> dict_get k d = None.
Proof.
  induction d as [|[k' v'] d IH]; simpl; intros Hn; [reflexivity|].
  destruct (String.eqb k' k) eqn:E.
  - apply String.eqb_eq in E. tauto.
  - apply IH. tauto.
Qed.

(** A mapping read by key does not depend on the order of its entries. *)
Lemma dict_get_permutation (k : string) (d d' : pydict) :
  NoDup (map fst d) -> Permutation d d' -> dict_get k d = dict_get k d'.
Proof.
  intros Hnd Hp. induction Hp as [| [k0 v0] d d' Hp IH | [k1 v1] [k2 v2] d | d d' d'' H1 IH1 H2 IH2].
  - reflexivity.
  - simpl. inversion Hnd; subst. rewrite IH by assumption. reflexivity.
  - simpl. destruct (String.eqb k2 k) eqn:E2, (String.eqb k1 k) eqn:E1; try reflexivity.
    apply String.eqb_eq in E1, E2. subst. simpl in Hnd.
    inversion Hnd as [|? ? Hn _]. elim Hn. apply list_elem_of_here.
  - rewrite IH1 by assumption. apply IH2.
    assert (Hp : Permutation (map fst d) (map fst d')) by apply Permutation_map, H1.
    rewrite <- Hp. assumption.
Qed.

(** ** Running the monad *)

Lemma bind_ok {A B} (m : M A) (k : A -> M B) (w w' : World) (a : A) :
  m w = (w', Ok a) -> bind m k w = k a w'.
Proof. intros H. unfold bind. rewrite H. reflexivity. Qed.

Lemma bind_raise {A B} (m : M A) (k : A -> M B) (w w' : World) (e : exn) :
  m w = (w', Raise e) -> bind m k w = (w', Raise e).
Proof. intros H. unfold bind. rewrite H. reflexivity. Qed.

Lemma deref_live (l : loc) (w : World) (d : pydict) :
  heap w !! l = Some d -> deref l w = d.
Proof. intros H. unfold deref. rewrite H. reflexivity. Qed.

Lemma deref_with_heap_insert (l : loc) (d : pydict) (h : gmap loc pydict) (w : World) :
  deref l (with_heap (<[l := d]> h) w) = d.
Proof. unfold deref. simpl. rewrite lookup_insert_eq. reflexivity. Qed.

Lemma str_or_empty (s : string) : str_or s "" = s.
Proof.
  unfold str_or. destruct (String.eqb s "") eqn:E; [|reflexivity].
  apply String.eqb_eq in E. congruence.
Qed.

(** ** sign *)

Section SignProperties.

Context {rt : Runtime}.
Variable cred : Credentials.

Lemma getitem_ok (l : loc) (k v : string) (w : World) :
  dict_get k (deref l w) = Some v -> getitem l k w = (w, Ok v).
Proof. intros H. unfold getitem. rewrite H. reflexivity. Qed.

Lemma getitem_missing (l : loc) (k : string) (w : World) :
  dict_get k (deref l w) = None -> getitem l k w = (w, Raise (KeyError k)).
Proof. intros H. unfold getitem. rewrite H. reflexivity. Qed.

Lemma canonical_headers_run (host bhash : string) (l : loc) (w : World)
      (a dt n v : string) :
  dict_get "x-acs-action" (deref l w) = Some a ->
  dict_get "x-acs-date" (deref l w) = Some dt ->
  dict_get "x-acs-signature-nonce" (deref l w) = Some n ->
  dict_get "x-acs-version" (deref l w) = Some v ->
  canonical_headers host bhash l w =
    (w, Ok (spec_header_block [host; a; bhash; dt; n; v])).
Proof.
  intros Ha Hd Hn Hv. unfold canonical_headers.
  rewrite (bind_ok _ _ _ _ _ (getitem_ok _ _ _ _ Ha)).
  rewrite (bind_ok _ _ _ _ _ (getitem_ok _ _ _ _ Hd)).
  rewrite (bind_ok _ _ _ _ _ (getitem_ok _ _ _ _ Hn)).
  rewrite (bind_ok _ _ _ _ _ (getitem_ok _ _ _ _ Hv)).
  reflexivity.
Qed.

Lemma sign_run (method url : string) (l : loc) (body : option string) (w : World)
      (p : ParseResult) (d : pydict) (a dt n v : string) :
  urlparse url = Some p ->
  deref l w = d ->
  dict_get "x-acs-action" d = Some a ->
  dict_get "x-acs-date" d = Some dt ->
  dict_get "x-acs-signature-nonce" d = Some n ->
  dict_get "x-acs-version" d = Some v ->
  sign cred method url l body w =
    (with_heap (<[l := signed_dict cred method p body a dt n v d]> (heap w)) w, Ok l).
Proof.
  intros Hurl Hl Ha Hd Hn Hv. unfold sign.
  rewrite (bind_ok _ _ w w p) by (unfold lift, py_urlparse; rewrite Hurl; reflexivity).
  erewrite bind_ok by reflexivity.
  rewrite Hl.
  erewrite bind_ok.
  2:{ apply canonical_headers_run with (a := a) (dt := dt) (n := n) (v := v);
      rewrite deref_with_heap_insert, dict_get_set_ne by discriminate; assumption. }
  erewrite bind_ok by reflexivity.
  rewrite deref_with_heap_insert. unfold ret, with_heap; simpl.
  rewrite insert_insert_eq. reflexivity.
Qed.

Lemma sign_unparsed (method url : string) (l : loc) (body : option string)
      (w : World) :
  urlparse url = None ->
  sign cred method url l body w = (w, Raise (ValueError "Invalid URL")).
Proof.
  intros Hurl. unfold sign. apply bind_raise.
  unfold lift, py_urlparse. rewrite Hurl. reflexivity.
Qed.

Lemma first_missing_spec (d : pydict) (k : string) :
  first_missing d = Some k -> In k required_headers /\ dict_get k d = None.
Proof.
  unfold first_missing. intros H. apply find_some in H. destruct H as [Hin Hk].
  split; [assumption|]. destruct (dict_get k d); [discriminate|reflexivity].
Qed.

Lemma first_missing_none (d : pydict) :
  first_missing d = None ->
  exists a dt n v,
    dict_get "x-acs-action" d = Some a /\ dict_get "x-acs-date" d = Some dt /\
    dict_get "x-acs-signature-nonce" d = Some n /\ dict_get "x-acs-version" d = Some v.
Proof.
  unfold first_missing, required_headers. simpl.
  destruct (dict_get "x-acs-action" d) as [a|]; [|discriminate].
  destruct (dict_get "x-acs-date" d) as [dt|]; [|discriminate].
  destruct (dict_get "x-acs-signature-nonce" d) as [n|]; [|discriminate].
  destruct (dict_get "x-acs-version" d) as [v|]; [|discriminate].
  intros _. exists a, dt, n, v. repeat split; reflexivity.
Qed.

(** A missing header stops [sign] at the first lookup that fails, after the
    content hash has been stored and before [Authorization] is. *)
Lemma sign_missing (method url : string) (l : loc) (body : option string)
      (w : World) (p : ParseResult) (d : pydict) (k : string) :
  urlparse url = Some p ->
  deref l w = d ->
  first_missing d = Some k ->
  sign cred method url l body w =
    (with_heap (<[l := dict_set "x-acs-content-sha256" (body_hash body) d]> (heap w)) w,
     Raise (KeyError k)).
Proof.
  intros Hurl Hl Hk. unfold sign.
  rewrite (bind_ok _ _ w w p) by (unfold lift, py_urlparse; rewrite Hurl; reflexivity).
  erewrite bind_ok by reflexivity.
  rewrite Hl. apply bind_raise. unfold canonical_headers.
  set (w1 := with_heap _ w).
  assert (Hget : forall k', k' <> "x-acs-content-sha256" ->
                 dict_get k' (deref l w1) = dict_get k' d).
  { intros k' Hne. unfold w1. rewrite deref_with_heap_insert.
    apply dict_get_set_ne. congruence. }
  revert Hk. unfold first_missing, required_headers. simpl.
  destruct (dict_get "x-acs-action" d) as [a|] eqn:Ea.
  2:{ intros [= <-]. apply bind_raise, getitem_missing.
      rewrite Hget by discriminate. assumption. }
  erewrite bind_ok by (apply getitem_ok; rewrite Hget by discriminate; eassumption).
  destruct (dict_get "x-acs-date" d) as [dt|] eqn:Ed.
  2:{ intros [= <-]. apply bind_raise, getitem_missing.
      rewrite Hget by discriminate. assumption. }
  erewrite bind_ok by (apply getitem_ok; rewrite Hget by discriminate; eassumption).
  destruct (dict_get "x-acs-signature-nonce" d) as [n|] eqn:En.
  2:{ intros [= <-]. apply bind_raise, getitem_missing.
      rewrite Hget by discriminate. assumption. }
  erewrite bind_ok by (apply getitem_ok; rewrite Hget by discriminate; eassumption).
  destruct (dict_get "x-acs-version" d) as [v|] eqn:Ev.
  2:{ intros [= <-]. apply bind_raise, getitem_missing.
      rewrite Hget by discriminate. assumption. }
  discriminate.
Qed.

Lemma canonical_request_joined (method upath uquery block bhash : string) :
  canonical_request method upath uquery block bhash =
  spec_canonical_request method upath uquery block
    (String.concat ";" signed_header_names) bhash.
Proof. reflexivity. Qed.

Lemma body_hash_default (body : option string) :
  body_hash body = Hashlib.sha256_hexdigest (Hashlib.encode (default "" body)).
Proof. unfold body_hash. rewrite str_or_empty. reflexivity. Qed.

(** C1: for a method GET or POST, a URL that parses and a mapping holding
    the four required headers, [sign] returns normally and stores under
    [Authorization] the text [ACS3-HMAC-SHA256 Credential=<id>,
    SignedHeaders=<the six names>,Signature=<sig>], where [sig] is the
    HMAC-SHA256, keyed by the secret, of [ACS3-HMAC-SHA256], a newline and
    the SHA-256 of the canonical request; the canonical request is METHOD,
    PATH ([/] for an empty path), the raw QUERY, the header block, a blank
    line, the signed names and the body hash joined by newlines; [sig] is
    sixty-four lowercase hexadecimal characters. *)
Theorem sign_sets_authorization
    (method url : string) (headers : loc) (body : option string) (w : World)
    (p : ParseResult) (d : pydict) (a dt n v : string) :
  method = "GET" \/ method = "POST" ->
  urlparse url = Some p ->
  heap w !! headers = Some d ->
  dict_get "x-acs-action" d = Some a ->
  dict_get "x-acs-date" d = Some dt ->
  dict_get "x-acs-signature-nonce" d = Some n ->
  dict_get "x-acs-version" d = Some v ->
  let upath := if String.eqb (path p) "" then "/" else path p in
  let bhash := Hashlib.sha256_hexdigest (Hashlib.encode (default "" body)) in
  let block := spec_header_block [netloc p; a; bhash; dt; n; v] in
  let crequest :=
    spec_canonical_request method upath (query p) block
      (String.concat ";" signed_header_names) bhash in
  let to_sign :=
    "ACS3-HMAC-SHA256" +:+ nl +:+ Hashlib.sha256_hexdigest (Hashlib.encode crequest) in
  let sig :=
    Hashlib.hmac_sha256_hexdigest
      (Hashlib.encode (ACCESS_KEY_SECRET cred)) (Hashlib.encode to_sign) in
  exists w',
    sign cred method url headers body w = (w', Ok headers) /\
    dict_get "Authorization" (deref headers w') =
      Some ("ACS3-HMAC-SHA256 Credential=" +:+ ACCESS_KEY_ID cred +:+
            ",SignedHeaders=host;x-acs-action;x-acs-content-sha256;x-acs-date;x-acs-signature-nonce;x-acs-version,Signature="
            +:+ sig) /\
    String.length sig = 64%nat /\
    lower_hex sig.
Proof.
  intros _ Hurl Hl Ha Hd Hn Hv upath bhash block crequest to_sign sig.
  eexists. split.
  { apply (sign_run method url headers body w p d a dt n v); auto using deref_live. }
  split; [|apply hmac_hexdigest_shape].
  rewrite deref_with_heap_insert. unfold signed_dict.
  rewrite dict_get_set_eq. f_equal.
  unfold authorization_for, authorization, signature, string_to_sign.
  rewrite canonical_request_joined, str_or_empty, body_hash_default.
  reflexivity.
Qed.

(** C8: called without a body, [sign] stores under [x-acs-content-sha256]
    the SHA-256 of the empty string, the constant [e3b0c442...7852b855],
    and the canonical request it signs ends with that same constant. *)
Theorem sign_empty_body_hash
    (method url : string) (headers : loc) (w : World)
    (p : ParseResult) (d : pydict) (a dt n v : string) :
  urlparse url = Some p ->
  heap w !! headers = Some d ->
  dict_get "x-acs-action" d = Some a ->
  dict_get "x-acs-date" d = Some dt ->
  dict_get "x-acs-signature-nonce" d = Some n ->
  dict_get "x-acs-version" d = Some v ->
  body_hash None = empty_sha256 /\
  Hashlib.sha256_hexdigest (Hashlib.encode "") = empty_sha256 /\
  exists w',
    sign cred method url headers None w = (w', Ok headers) /\
    dict_get "x-acs-content-sha256" (deref headers w') = Some empty_sha256 /\
    dict_get "Authorization" (deref headers w') =
      Some (authorization cred (signature cred (string_to_sign
        (spec_canonical_request method (str_or (path p) "/") (query p)
           (spec_header_block [netloc p; a; empty_sha256; dt; n; v])
           (String.concat ";" signed_header_names) empty_sha256)))).
Proof.
  intros Hurl Hl Ha Hd Hn Hv.
  assert (Hempty : body_hash None = empty_sha256) by (vm_compute; reflexivity).
  split; [exact Hempty|]. split; [vm_compute; reflexivity|].
  eexists. split.
  { apply (sign_run method url headers None w p d a dt n v); auto using deref_live. }
  rewrite deref_with_heap_insert. unfold signed_dict. split.
  - rewrite dict_get_set_ne by discriminate.
    rewrite dict_get_set_eq, Hempty. reflexivity.
  - rewrite dict_get_set_eq. unfold authorization_for.
    rewrite canonical_request_joined, str_or_empty, Hempty. reflexivity.
Qed.

(** C6: for a mapping holding the four required headers, the header block
    [sign] builds (lines 33-40, run after the content hash is stored) is the
    six [name:value] lines in the order host, x-acs-action,
    x-acs-content-sha256, x-acs-date, x-acs-signature-nonce, x-acs-version;
    a mapping with the same entries inserted in another order gives the
    same block; the host line carries the network location of the URL,
    whatever [host] entry the caller put in the mapping; and the
    [Authorization] value is computed from that block. *)
Theorem canonical_block_fixed_order
    (method url : string) (body : option string) (p : ParseResult)
    (l l' : loc) (w w' : World) (d d' : pydict) (a dt n v : string) :
  urlparse url = Some p ->
  heap w !! l = Some d ->
  heap w' !! l' = Some d' ->
  dict_get "x-acs-action" d = Some a ->
  dict_get "x-acs-date" d = Some dt ->
  dict_get "x-acs-signature-nonce" d = Some n ->
  dict_get "x-acs-version" d = Some v ->
  NoDup (map fst d) ->
  Permutation d d' ->
  let bhash := body_hash body in
  let block :=
    String.concat nl
      [ "host:" +:+ netloc p;
        "x-acs-action:" +:+ a;
        "x-acs-content-sha256:" +:+ bhash;
        "x-acs-date:" +:+ dt;
        "x-acs-signature-nonce:" +:+ n;
        "x-acs-version:" +:+ v ] in
  let stored (l0 : loc) (w0 : World) :=
    fst (setitem l0 "x-acs-content-sha256" bhash w0) in
  let signed_from (blk : string) :=
    authorization cred (signature cred (string_to_sign
      (canonical_request method (str_or (path p) "/") (str_or (query p) "")
                         blk bhash))) in
  block = spec_header_block [netloc p; a; bhash; dt; n; v] /\
  canonical_headers (netloc p) bhash l (stored l w) = (stored l w, Ok block) /\
  canonical_headers (netloc p) bhash l' (stored l' w') = (stored l' w', Ok block) /\
  (forall caller_host : string,
      let w_host := fst (setitem l "host" caller_host w) in
      canonical_headers (netloc p) bhash l (stored l w_host)
      = (stored l w_host, Ok block)) /\
  (exists w1, sign cred method url l body w = (w1, Ok l) /\
              dict_get "Authorization" (deref l w1) = Some (signed_from block)) /\
  (exists w1', sign cred method url l' body w' = (w1', Ok l') /\
               dict_get "Authorization" (deref l' w1') = Some (signed_from block)).
Proof.
  intros Hurl Hl Hl' Ha Hd Hn Hv Hnd Hperm bhash block stored signed_from.
  assert (Hsame : forall k, dict_get k d' = dict_get k d).
  { intros k. symmetry. apply dict_get_permutation; assumption. }
  assert (Hstored : forall (l0 : loc) (w0 : World) (d0 : pydict),
             deref l0 w0 = d0 ->
             dict_get "x-acs-action" d0 = Some a ->
             dict_get "x-acs-date" d0 = Some dt ->
             dict_get "x-acs-signature-nonce" d0 = Some n ->
             dict_get "x-acs-version" d0 = Some v ->
             canonical_headers (netloc p) bhash l0 (stored l0 w0)
             = (stored l0 w0, Ok block)).
  { intros l0 w0 d0 H0 Ha0 Hd0 Hn0 Hv0. unfold stored, setitem. simpl.
    apply canonical_headers_run;
      rewrite deref_with_heap_insert, dict_get_set_ne, H0 by discriminate;
      assumption. }
  split; [reflexivity|].
  split; [apply (Hstored l w d); auto using deref_live|].
  split; [apply (Hstored l' w' d'); rewrite ?Hsame; auto using deref_live|].
  split.
  { intros caller_host w_host. apply (Hstored l w_host (dict_set "host" caller_host d)).
    - unfold w_host, setitem. simpl.
      rewrite deref_with_heap_insert, (deref_live _ _ _ Hl). reflexivity.
    - rewrite dict_get_set_ne by discriminate. assumption.
    - rewrite dict_get_set_ne by discriminate. assumption.
    - rewrite dict_get_set_ne by discriminate. assumption.
    - rewrite dict_get_set_ne by discriminate. assumption. }
  split.
  - eexists. split.
    { apply (sign_run method url l body w p d a dt n v); auto using deref_live. }
    rewrite deref_with_heap_insert. unfold signed_dict.
    rewrite dict_get_set_eq. reflexivity.
  - eexists. split.
    { apply (sign_run method url l' body w' p d' a dt n v);
        rewrite ?Hsame; auto using deref_live. }
    rewrite deref_with_heap_insert. unfold signed_dict.
    rewrite dict_get_set_eq. reflexivity.
Qed.

(** C7: two calls of [sign] with the same method, URL and body, on
    mappings with identical content and under the same credentials, end
    the same way (both return their mapping, or both raise the same
    exception) and leave identical mappings, hence identical
    [Authorization] values, whatever else the two worlds hold; and a call
    touches nothing but that mapping: it reads no clock, sends no request
    and prints nothing. *)
Theorem sign_deterministic
    (method url : string) (body : option string) (d : pydict)
    (l1 l2 : loc) (w1 w2 : World) :
  heap w1 !! l1 = Some d ->
  heap w2 !! l2 = Some d ->
  exists (w1' w2' : World) (r1 r2 : result loc),
    sign cred method url l1 body w1 = (w1', r1) /\
    sign cred method url l2 body w2 = (w2', r2) /\
    (r1 = Ok l1 /\ r2 = Ok l2 \/ exists e, r1 = Raise e /\ r2 = Raise e) /\
    deref l1 w1' = deref l2 w2' /\
    dict_get "Authorization" (deref l1 w1') = dict_get "Authorization" (deref l2 w2') /\
    (trace w1' = trace w1 /\ sent w1' = sent w1 /\ ticks w1' = ticks w1) /\
    (trace w2' = trace w2 /\ sent w2' = sent w2 /\ ticks w2' = ticks w2) /\
    (forall l, l <> l1 -> heap w1' !! l = heap w1 !! l) /\
    (forall l, l <> l2 -> heap w2' !! l = heap w2 !! l).
Proof.
  intros H1 H2.
  pose proof (deref_live _ _ _ H1) as D1. pose proof (deref_live _ _ _ H2) as D2.
  destruct (urlparse url) as [p|] eqn:Hurl.
  - destruct (first_missing d) as [k|] eqn:Hk.
    + do 4 eexists.
      split; [apply (sign_missing method url l1 body w1 p d k); assumption|].
      split; [apply (sign_missing method url l2 body w2 p d k); assumption|].
      split; [right; eauto|].
      rewrite !deref_with_heap_insert. simpl.
      repeat split; try reflexivity; intros l Hne; apply lookup_insert_ne; congruence.
    + destruct (first_missing_none d Hk) as (a & dt & n & v & Ha & Hd & Hn & Hv).
      do 4 eexists.
      split; [apply (sign_run method url l1 body w1 p d a dt n v); assumption|].
      split; [apply (sign_run method url l2 body w2 p d a dt n v); assumption|].
      split; [left; auto|].
      rewrite !deref_with_heap_insert. simpl.
      repeat split; try reflexivity; intros l Hne; apply lookup_insert_ne; congruence.
  - do 4 eexists.
    split; [apply sign_unparsed; eassumption|].
    split; [apply sign_unparsed; eassumption|].
    split; [right; eauto|].
    rewrite D1, D2. repeat split; reflexivity.
Qed.

(** C9: [sign] returns the location it was given, and the mapping at that
    location is the given one with [x-acs-content-sha256] and
    [Authorization] set: every other key reads as before, no other mapping
    of the heap changes and none is created. *)
Theorem sign_mutates_in_place
    (method url : string) (headers : loc) (body : option string) (w : World)
    (p : ParseResult) (d : pydict) (a dt n v : string) :
  urlparse url = Some p ->
  heap w !! headers = Some d ->
  dict_get "x-acs-action" d = Some a ->
  dict_get "x-acs-date" d = Some dt ->
  dict_get "x-acs-signature-nonce" d = Some n ->
  dict_get "x-acs-version" d = Some v ->
  exists (w' : World) (d' : pydict),
    sign cred method url headers body w = (w', Ok headers) /\
    heap w' !! headers = Some d' /\
    dict_get "x-acs-content-sha256" d' = Some (body_hash body) /\
    dict_get "Authorization" d' = Some (authorization_for cred method p body a dt n v) /\
    (forall k, k <> "x-acs-content-sha256" -> k <> "Authorization" ->
               dict_get k d' = dict_get k d) /\
    (forall l, l <> headers -> heap w' !! l = heap w !! l) /\
    dom (heap w') = dom (heap w).
Proof.
  intros Hurl Hl Ha Hd Hn Hv.
  exists (with_heap (<[headers := signed_dict cred method p body a dt n v d]> (heap w)) w),
         (signed_dict cred method p body a dt n v d).
  split; [apply (sign_run method url headers body w p d a dt n v); auto using deref_live|].
  simpl. split; [apply lookup_insert_eq|]. unfold signed_dict.
  split; [rewrite dict_get_set_ne by discriminate; apply dict_get_set_eq|].
  split; [apply dict_get_set_eq|].
  split; [intros k H1 H2; rewrite !dict_get_set_ne by congruence; reflexivity|].
  split; [intros l Hne; apply lookup_insert_ne; congruence|].
  rewrite dom_insert_L. apply elem_of_dom_2 in Hl.
  apply subseteq_union_1_L, singleton_subseteq_l, Hl.
Qed.

(** C10 (amended): for a URL that [urlparse] accepts, [sign] raises [KeyError] exactly when the
    mapping lacks one of the four required headers: the error names the
    first one missing, the content hash has then already been stored in
    the mapping and [Authorization] has not; when the four are present no
    lookup fails and [sign] returns its mapping. *)
Theorem sign_key_error
    (method url : string) (headers : loc) (body : option string) (w : World)
    (p : ParseResult) (d : pydict) :
  urlparse url = Some p ->
  heap w !! headers = Some d ->
  ((exists k, In k required_headers /\ dict_get k d = None) ->
     exists (k : string) (w' : World),
       sign cred method url headers body w = (w', Raise (KeyError k)) /\
       In k required_headers /\ dict_get k d = None /\
       first_missing d = Some k /\
       heap w' !! headers
         = Some (dict_set "x-acs-content-sha256" (body_hash body) d) /\
       dict_get "Authorization" (deref headers w') = dict_get "Authorization" d) /\
  ((forall k, In k required_headers -> is_Some (dict_get k d)) ->
     exists w' : World, sign cred method url headers body w = (w', Ok headers)).
Proof.
  intros Hurl Hl. pose proof (deref_live _ _ _ Hl) as D. split.
  - intros (k0 & Hin0 & Hnone0).
    destruct (first_missing d) as [k|] eqn:Hk.
    + destruct (first_missing_spec d k Hk) as [Hin Hnone].
      exists k. eexists.
      split; [apply (sign_missing method url headers body w p d k); assumption|].
      repeat split; try assumption.
      * simpl. apply lookup_insert_eq.
      * rewrite deref_with_heap_insert. apply dict_get_set_ne. discriminate.
    + destruct (first_missing_none d Hk) as (a & dt & n & v & Ha & Hd & Hn & Hv).
      simpl in Hin0. destruct Hin0 as [<-|[<-|[<-|[<-|[]]]]]; congruence.
  - intros Hall.
    destruct (Hall "x-acs-action") as [a Ha]; [simpl; auto|].
    destruct (Hall "x-acs-date") as [dt Hd]; [simpl; auto|].
    destruct (Hall "x-acs-signature-nonce") as [n Hn]; [simpl; auto|].
    destruct (Hall "x-acs-version") as [v Hv]; [simpl; auto 6|].
    eexists. apply (sign_run method url headers body w p d a dt n v); assumption.
Qed.

End SignProperties.

(** ** The two calls to the service *)

Section CallProperties.

Context {rt : Runtime}.
Variable cred : Credentials.

Lemma actions_app (t1 t2 : list event) :
  actions (t1 ++ t2) = actions t1 ++ actions t2.
Proof. apply omap_app. Qed.

Lemma actions_error_report (reply : result string) :
  actions (error_report reply) = [].
Proof.
  destruct reply as [text|[]]; try reflexivity.
  simpl. destruct (valid_utf8 body); reflexivity.
Qed.

(** [get_task] sends one signed GET to the status URL and turns the answer
    into its result; the network script and the clock are left as they
    were. *)
Lemma body_hash_none : body_hash None = empty_sha256.
Proof. vm_compute. reflexivity. Qed.

Lemma signed_dict_content_hash (method : string) (p : ParseResult)
      (a dt n v : string) (d : pydict) :
  dict_get "x-acs-content-sha256" (signed_dict cred method p None a dt n v d)
  = Some empty_sha256.
Proof.
  unfold signed_dict. rewrite dict_get_set_ne by discriminate.
  rewrite dict_get_set_eq, body_hash_none. reflexivity.
Qed.

Ltac finish_call :=
  do 2 eexists; split; [reflexivity|]; simpl;
  do 3 (split; [reflexivity|]);
  split; [rewrite <- ?app_assoc; reflexivity | apply signed_dict_content_hash].

(** [get_task] sends one signed GET to the status URL and turns the answer
    into its result; the network script and the clock are left as they
    were. *)
Lemma get_task_run (task_id : value) (w : World) (p : ParseResult) :
  urlparse (status_query task_id) = Some p ->
  exists (w' : World) (hdrs : pydict),
    get_task cred task_id w = (w', call_outcome (network w (sent w))) /\
    network w' = network w /\
    clock w' = clock w /\
    sent w' = S (sent w) /\
    trace w' = trace w ++ ERequest "GET" (status_query task_id) hdrs None
                            :: error_report (network w (sent w)) /\
    dict_get "x-acs-content-sha256" hdrs = Some empty_sha256.
Proof.
  intros Hurl. unfold get_task. fold (status_query task_id).
  erewrite bind_ok by reflexivity.
  erewrite bind_ok by reflexivity.
  erewrite bind_ok by reflexivity.
  erewrite bind_ok.
  2:{ eapply sign_run; [exact Hurl | apply deref_with_heap_insert | reflexivity ..]. }
  unfold try_except_HTTPError, bind, urlopen, lift, decode, print, emit, ret.
  rewrite deref_with_heap_insert. simpl.
  destruct (network w (sent w)) as [raw|e] eqn:Hnet; simpl.
  - destruct (valid_utf8 raw); [|finish_call].
    unfold py_json_loads. destruct (json_loads raw) as [status|]; finish_call.
  - destruct e; try finish_call.
    destruct (valid_utf8 body); finish_call.
Qed.

(** [create_task] sends one signed POST to the endpoint. *)
Lemma create_task_run (file_url : string) (w : World) (p : ParseResult) :
  urlparse endpoint = Some p ->
  exists (w' : World) (hdrs : pydict),
    create_task cred file_url w = (w', call_outcome (network w (sent w))) /\
    network w' = network w /\
    clock w' = clock w /\
    sent w' = S (sent w) /\
    trace w' =
      trace w ++
      ERequest "POST" endpoint hdrs
        (Some (json_dumps
                 (create_task_body cred file_url (epoch_int (clock w (2 + ticks w))))))
      :: error_report (network w (sent w)).
Proof.
  intros Hurl. unfold create_task.
  erewrite bind_ok by reflexivity.
  erewrite bind_ok by reflexivity.
  erewrite bind_ok by reflexivity.
  erewrite bind_ok by reflexivity.
  erewrite bind_ok.
  2:{ eapply sign_run; [exact Hurl | apply deref_with_heap_insert | reflexivity ..]. }
  unfold try_except_HTTPError, bind, urlopen, lift, decode, print, emit, ret.
  rewrite deref_with_heap_insert. simpl.
  destruct (network w (sent w)) as [raw|e] eqn:Hnet; simpl.
  - destruct (valid_utf8 raw);
      [unfold py_json_loads; destruct (json_loads raw) as [status|]|];
      (do 2 eexists; split; [reflexivity|]; simpl;
       repeat split; rewrite <- ?app_assoc; reflexivity).
  - destruct e; try destruct (valid_utf8 body);
      (do 2 eexists; split; [reflexivity|]; simpl;
       repeat split; rewrite <- ?app_assoc; reflexivity).
Qed.

(** One turn of the loop: sleep ten seconds, poll once, and end as
    [turn_outcome] says. *)
Lemma poll_once_run (task_id : value) (w : World) (p : ParseResult) :
  urlparse (status_query task_id) = Some p ->
  exists w' : World,
    poll_once cred task_id w = (w', turn_outcome (network w (sent w))) /\
    network w' = network w /\
    sent w' = S (sent w) /\
    actions (trace w') =
      actions (trace w) ++ [Slept 10; Requested "GET" (status_query task_id)].
Proof.
  intros Hurl. unfold poll_once.
  erewrite bind_ok by reflexivity.
  set (ws := with_trace (trace w ++ [ESleep 10]) w).
  destruct (get_task_run task_id ws p Hurl)
    as (w1 & hdrs & Hrun & Hnet & _ & Hsent & Htrace & _).
  change (network ws) with (network w) in *.
  change (sent ws) with (sent w) in *.
  change (trace ws) with (trace w ++ [ESleep 10]) in Htrace.
  assert (Hact : actions (trace w1) =
                 actions (trace w) ++ [Slept 10; Requested "GET" (status_query task_id)]).
  { rewrite Htrace, <- app_assoc, !actions_app. simpl.
    rewrite actions_error_report. reflexivity. }
  unfold turn_outcome.
  destruct (call_outcome (network w (sent w))) as [status|e].
  2:{ rewrite (bind_raise _ _ _ _ _ Hrun). eauto. }
  rewrite (bind_ok _ _ _ _ _ Hrun).
  destruct (truthy status); [|unfold ret; eauto].
  unfold bind at 1, lift.
  destruct (method_get status "Data" (PyDict [])) as [data|e]; [|eauto].
  unfold bind at 1.
  destruct (method_get data "TaskStatus" PyNone) as [ts|e]; [|eauto].
  unfold bind, print, emit, ret.
  destruct (equals_str ts "COMPLETED"); simpl.
  { eexists. split; [reflexivity|]. simpl.
    rewrite !actions_app, Hact. simpl. rewrite !app_nil_r. auto. }
  destruct (equals_str ts "FAILED"); simpl.
  { eexists. split; [reflexivity|]. simpl.
    rewrite !actions_app, Hact. simpl. rewrite !app_nil_r. auto. }
  eexists. split; [reflexivity|]. simpl.
  rewrite !actions_app, Hact. simpl. rewrite !app_nil_r. auto.
Qed.

(** *** How a turn ends and what the poll reported *)

Lemma equals_str_true (ts : value) (text : string) :
  equals_str ts text = true <-> ts = PyStr text.
Proof.
  destruct ts; simpl; try (split; [discriminate | intros [=]]).
  rewrite String.eqb_eq. split; [congruence | intros [=]; assumption].
Qed.

Lemma equals_str_false (ts : value) (text : string) :
  equals_str ts text = false <-> ts <> PyStr text.
Proof.
  rewrite <- equals_str_true. destruct (equals_str ts text); split; congruence.
Qed.

Lemma truthy_with_key (k : string) (items : list (string * value)) (x : value) :
  items_get k items = Some x -> truthy (PyDict items) = true.
Proof. destruct items; [discriminate | reflexivity]. Qed.

Lemma turn_break_iff (reply : result string) :
  turn_outcome reply = Ok Break <-> terminal reply.
Proof.
  split.
  - unfold turn_outcome, call_outcome, py_json_loads.
    destruct reply as [text|e];
      [|destruct e; try discriminate; destruct (valid_utf8 body); discriminate].
    destruct (valid_utf8 text); [|discriminate].
    destruct (json_loads text) as [status|] eqn:Hloads; [|discriminate].
    destruct (truthy status); [|discriminate].
    destruct status as [| | | | |?|items]; try discriminate. simpl.
    destruct (items_get "Data" items) as [data|] eqn:Hdata; simpl.
    + destruct data as [| | | | |?|ditems]; try discriminate. simpl.
      destruct (items_get "TaskStatus" ditems) as [ts|] eqn:Hts; simpl;
        [|discriminate].
      destruct (equals_str ts "COMPLETED") eqn:Ec; simpl.
      * intros _. apply equals_str_true in Ec.
        eapply terminal_status; [exact Hloads | simpl; rewrite Hdata; exact Hts | auto].
      * destruct (equals_str ts "FAILED") eqn:Ef; [|discriminate].
        intros _. apply equals_str_true in Ef.
        eapply terminal_status; [exact Hloads | simpl; rewrite Hdata; exact Hts | auto].
    + discriminate.
  - intros [text status ts Hloads Hrep Hts].
    unfold turn_outcome, call_outcome, py_json_loads.
    rewrite (json_loads_str _ _ Hloads), Hloads.
    destruct status as [| | | | |?|items]; try discriminate. simpl in Hrep.
    destruct (items_get "Data" items) as [data|] eqn:Hdata; [|discriminate].
    destruct data as [| | | | |?|ditems]; try discriminate.
    rewrite (truthy_with_key _ _ _ Hdata). simpl. rewrite Hdata. simpl.
    rewrite Hrep. simpl. destruct Hts as [-> | ->]; reflexivity.
Qed.

Lemma turn_continue_iff (reply : result string) :
  turn_outcome reply = Ok Continue <-> in_progress reply.
Proof.
  split.
  - unfold turn_outcome, call_outcome, py_json_loads.
    destruct reply as [text|e].
    2:{ destruct e; try discriminate.
        destruct (valid_utf8 body) eqn:Hvalid; [|discriminate].
        intros _. constructor. exact Hvalid. }
    destruct (valid_utf8 text); [|discriminate].
    destruct (json_loads text) as [status|] eqn:Hloads; [|discriminate].
    destruct (truthy status) eqn:Htruthy.
    2:{ intros _. eapply empty_document; eassumption. }
    destruct status as [| | | | |?|items]; try discriminate. simpl.
    destruct (items_get "Data" items) as [data|] eqn:Hdata; simpl.
    + destruct data as [| | | | |?|ditems]; try discriminate. simpl.
      destruct (items_get "TaskStatus" ditems) as [ts|] eqn:Hts; simpl.
      * destruct (equals_str ts "COMPLETED") eqn:Ec; [discriminate|].
        destruct (equals_str ts "FAILED") eqn:Ef; [discriminate|].
        intros _. apply equals_str_false in Ec, Ef.
        eapply other_status; eassumption.
      * intros _. eapply missing_status; eassumption.
    + intros _. eapply missing_data; eassumption.
  - unfold turn_outcome, call_outcome, py_json_loads.
    intros [code page Hvalid | text status Hloads Hfalsy | text items Hloads Hdata
            | text items data Hloads Hdata Hts
            | text items data ts Hloads Hdata Hts Hc Hf];
      try rewrite (json_loads_str _ _ Hloads).
    + rewrite Hvalid. reflexivity.
    + rewrite Hloads, Hfalsy. reflexivity.
    + rewrite Hloads. destruct (truthy (PyDict items)); [|reflexivity].
      simpl. rewrite Hdata. reflexivity.
    + rewrite Hloads, (truthy_with_key _ _ _ Hdata). simpl.
      rewrite Hdata. simpl. rewrite Hts. reflexivity.
    + rewrite Hloads, (truthy_with_key _ _ _ Hdata). simpl.
      rewrite Hdata. simpl. rewrite Hts. simpl.
      apply equals_str_false in Hc, Hf. rewrite Hc, Hf. reflexivity.
Qed.

Lemma turn_transport_failure (e : exn) :
  transport_failure e -> turn_outcome (Raise e) = Raise e.
Proof. destruct e; simpl; intros H; try contradiction; reflexivity. Qed.

(** *** The loop *)

Section Loop.

Variable task_id : value.
Variable p : ParseResult.
Hypothesis Hurl : urlparse (status_query task_id) = Some p.

Lemma poll_loop_step (turns : nat) (w : World) :
  exists w1 : World,
    network w1 = network w /\
    sent w1 = S (sent w) /\
    actions (trace w1) = actions (trace w) ++ turn_actions task_id /\
    poll_loop cred (S turns) task_id w =
      match turn_outcome (network w (sent w)) with
      | Ok Break => (w1, Ok Finished)
      | Ok Continue => poll_loop cred turns task_id w1
      | Raise e => (w1, Raise e)
      end.
Proof using Hurl.
  destruct (poll_once_run task_id w p Hurl) as (w1 & Hrun & Hnet & Hsent & Hact).
  exists w1. repeat split; try assumption.
  simpl. destruct (turn_outcome (network w (sent w))) as [[]|e].
  - rewrite (bind_ok _ _ _ _ _ Hrun). reflexivity.
  - rewrite (bind_ok _ _ _ _ _ Hrun). reflexivity.
  - rewrite (bind_raise _ _ _ _ _ Hrun). reflexivity.
Qed.

(** While the polls are answered by in-progress reports the loop goes on. *)
Lemma poll_loop_prefix (k : nat) :
  forall (turns : nat) (w : World),
    (forall i, (i < k)%nat -> turn_outcome (network w (sent w + i)) = Ok Continue) ->
    exists wk : World,
      poll_loop cred (k + turns) task_id w = poll_loop cred turns task_id wk /\
      network wk = network w /\
      sent wk = (sent w + k)%nat /\
      actions (trace wk) = actions (trace w) ++ concat (repeat (turn_actions task_id) k).
Proof using Hurl.
  induction k as [|k IH]; intros turns w Hcont.
  - exists w. rewrite Nat.add_0_r, app_nil_r. auto.
  - destruct (poll_loop_step (k + turns) w) as (w1 & Hnet & Hsent & Hact & Hstep).
    pose proof (Hcont 0%nat ltac:(lia)) as H0. rewrite Nat.add_0_r in H0.
    rewrite H0 in Hstep.
    destruct (IH turns w1) as (wk & Hk & Hnetk & Hsentk & Hactk).
    { intros i Hi. rewrite Hnet, Hsent.
      replace (S (sent w) + i)%nat with (sent w + S i)%nat by lia.
      apply Hcont. lia. }
    exists wk. split; [simpl plus; rewrite Hstep; exact Hk|].
    split; [congruence|]. split; [lia|].
    rewrite Hactk, Hact, <- app_assoc. reflexivity.
Qed.

(** Whatever a bounded run of the loop returns, it got there by turns that
    all went on, but for the last one when the run has ended. *)
Lemma poll_loop_inversion (turns : nat) :
  forall (w w' : World) (r : result progress),
    poll_loop cred turns task_id w = (w', r) ->
    exists polls : nat,
      (polls <= turns)%nat /\
      network w' = network w /\
      sent w' = (sent w + polls)%nat /\
      actions (trace w') =
        actions (trace w) ++ concat (repeat (turn_actions task_id) polls) /\
      match r with
      | Ok Polling =>
          polls = turns /\
          forall i, (i < polls)%nat ->
                    turn_outcome (network w (sent w + i)) = Ok Continue
      | Ok Finished =>
          exists k, polls = S k /\
            turn_outcome (network w (sent w + k)) = Ok Break /\
            forall i, (i < k)%nat ->
                      turn_outcome (network w (sent w + i)) = Ok Continue
      | Raise e =>
          exists k, polls = S k /\
            turn_outcome (network w (sent w + k)) = Raise e /\
            forall i, (i < k)%nat ->
                      turn_outcome (network w (sent w + i)) = Ok Continue
      end.
Proof using Hurl.
  induction turns as [|turns IH]; intros w w' r Hrun.
  - injection Hrun as <- <-. exists 0%nat.
    rewrite Nat.add_0_r, app_nil_r. repeat split; auto. intros i Hi. lia.
  - destruct (poll_loop_step turns w) as (w1 & Hnet & Hsent & Hact & Hstep).
    rewrite Hstep in Hrun.
    destruct (turn_outcome (network w (sent w))) as [[]|e] eqn:Hout.
    + destruct (IH _ _ _ Hrun) as (polls & Hle & Hnet' & Hsent' & Hact' & Hr).
      assert (Hshift : forall i, network w1 (sent w1 + i) = network w (sent w + S i)).
      { intros i. rewrite Hnet, Hsent. f_equal. lia. }
      assert (Hall : forall k,
                 (forall i, (i < k)%nat ->
                    turn_outcome (network w1 (sent w1 + i)) = Ok Continue) ->
                 forall i, (i < S k)%nat ->
                    turn_outcome (network w (sent w + i)) = Ok Continue).
      { intros k Hk [|i] Hi.
        - rewrite Nat.add_0_r. exact Hout.
        - rewrite <- Hshift. apply Hk. lia. }
      exists (S polls). split; [lia|]. split; [congruence|]. split; [lia|].
      split.
      { rewrite Hact', Hact, <- app_assoc. reflexivity. }
      destruct r as [[]|e].
      * destruct Hr as (k & -> & Hbreak & Hbefore).
        exists (S k). split; [reflexivity|].
        split; [rewrite <- Hshift; exact Hbreak | apply Hall, Hbefore].
      * destruct Hr as [-> Hbefore].
        split; [reflexivity | apply Hall, Hbefore].
      * destruct Hr as (k & -> & Hraise & Hbefore).
        exists (S k). split; [reflexivity|].
        split; [rewrite <- Hshift; exact Hraise | apply Hall, Hbefore].
    + injection Hrun as <- <-. exists 1%nat.
      split; [lia|]. split; [assumption|]. split; [lia|].
      split; [exact Hact|].
      exists 0%nat. rewrite Nat.add_0_r.
      repeat split; auto. intros i Hi. lia.
    + injection Hrun as <- <-. exists 1%nat.
      split; [lia|]. split; [assumption|]. split; [lia|].
      split; [exact Hact|].
      exists 0%nat. rewrite Nat.add_0_r.
      repeat split; auto. intros i Hi. lia.
Qed.

(** The turn after a run of in-progress reports decides how the loop ends. *)
Lemma poll_loop_ends (k turns : nat) (w : World) :
  (k < turns)%nat ->
  (forall i, (i < k)%nat -> turn_outcome (network w (sent w + i)) = Ok Continue) ->
  exists w' : World,
    sent w' = (sent w + S k)%nat /\
    poll_loop cred turns task_id w =
      match turn_outcome (network w (sent w + k)) with
      | Ok Break => (w', Ok Finished)
      | Ok Continue => poll_loop cred (turns - S k) task_id w'
      | Raise e => (w', Raise e)
      end.
Proof using Hurl.
  intros Hlt Hcont.
  destruct (poll_loop_prefix k (turns - k) w Hcont) as (wk & Hk & Hnetk & Hsentk & _).
  replace (k + (turns - k))%nat with turns in Hk by lia.
  destruct (poll_loop_step (turns - S k) wk) as (w' & _ & Hsent' & _ & Hstep).
  replace (S (turns - S k)) with (turns - k)%nat in Hstep by lia.
  exists w'. split; [lia|].
  rewrite Hk, Hstep, Hnetk, Hsentk. reflexivity.
Qed.

End Loop.

(** C3 (amended): each turn of the polling loop waits ten seconds and then
    sends a GET whose URL carries the job identifier as the [TaskId] query
    parameter; the loop ends normally exactly at the first poll that
    reports COMPLETED or FAILED, the polls before it having been answered
    by an HTTP error status whose body decodes as UTF-8, an empty document,
    a document without a status field or another status value; while every
    poll is answered that way the loop goes on for ever; a transport
    failure of a poll is not caught: it ends the loop with that exception;
    and so does an answer, 2xx or error status, whose body is not
    well-formed UTF-8: the loop ends with [UnicodeDecodeError]. *)
Theorem polling_loop_behaviour (task_id : value) (p : ParseResult) (w : World) :
  urlparse (status_query task_id) = Some p ->
  let reply (i : nat) := network w (sent w + i) in
  let turn :=
    [ Slept 10;
      Requested "GET"
        ("https://tingwu.cn-beijing.aliyuncs.com/" +:+ "?TaskId=" +:+
         format_value task_id) ] in
  (forall turns w' r,
      poll_loop cred turns task_id w = (w', r) ->
      actions (trace w') =
        actions (trace w) ++ concat (repeat turn (sent w' - sent w))) /\
  (forall turns,
      (exists w', poll_loop cred turns task_id w = (w', Ok Finished)) <->
      (exists k, (k < turns)%nat /\ terminal (reply k) /\
                 forall i, (i < k)%nat -> in_progress (reply i))) /\
  ((forall i, in_progress (reply i)) ->
     forall turns, exists w',
       poll_loop cred turns task_id w = (w', Ok Polling) /\
       sent w' = (sent w + turns)%nat) /\
  (forall k e turns,
      (k < turns)%nat ->
      (forall i, (i < k)%nat -> in_progress (reply i)) ->
      reply k = Raise e ->
      transport_failure e ->
      exists w', poll_loop cred turns task_id w = (w', Raise e) /\
                 sent w' = (sent w + S k)%nat) /\
  (forall k raw turns,
      (k < turns)%nat ->
      (forall i, (i < k)%nat -> in_progress (reply i)) ->
      (reply k = Ok raw \/ exists code, reply k = Raise (HTTPError code raw)) ->
      valid_utf8 raw = false ->
      exists w', poll_loop cred turns task_id w = (w', Raise UnicodeDecodeError) /\
                 sent w' = (sent w + S k)%nat).
Proof.
  intros Hurl reply turn. repeat split.
  - intros turns w' r Hrun.
    destruct (poll_loop_inversion task_id p Hurl turns w w' r Hrun)
      as (polls & _ & _ & Hsent & Hact & _).
    rewrite Hact, Hsent. replace (sent w + polls - sent w)%nat with polls by lia.
    reflexivity.
  - intros [w' Hrun].
    destruct (poll_loop_inversion task_id p Hurl turns w w' _ Hrun)
      as (polls & Hle & _ & _ & _ & k & -> & Hbreak & Hbefore).
    exists k. split; [lia|]. split; [apply turn_break_iff, Hbreak|].
    intros i Hi. apply turn_continue_iff, Hbefore, Hi.
  - intros (k & Hlt & Hterm & Hbefore).
    destruct (poll_loop_ends task_id p Hurl k turns w Hlt) as (w' & _ & Hend).
    { intros i Hi. apply turn_continue_iff, Hbefore, Hi. }
    apply turn_break_iff in Hterm. unfold reply in Hterm. rewrite Hterm in Hend.
    eauto.
  - intros Hall turns.
    destruct (poll_loop_prefix task_id p Hurl turns 0%nat w) as (wk & Hk & _ & Hsent & _).
    { intros i _. apply turn_continue_iff, Hall. }
    rewrite Nat.add_0_r in Hk. exists wk. split; [exact Hk | exact Hsent].
  - intros k e turns Hlt Hbefore Hreply Hfail.
    destruct (poll_loop_ends task_id p Hurl k turns w Hlt) as (w' & Hsent & Hend).
    { intros i Hi. apply turn_continue_iff, Hbefore, Hi. }
    unfold reply in Hreply. rewrite Hreply, (turn_transport_failure e Hfail) in Hend.
    eauto.
  - intros k raw turns Hlt Hbefore Hreply Hbad.
    destruct (poll_loop_ends task_id p Hurl k turns w Hlt) as (w' & Hsent & Hend).
    { intros i Hi. apply turn_continue_iff, Hbefore, Hi. }
    assert (Hout : turn_outcome (reply k) = Raise UnicodeDecodeError).
    { unfold turn_outcome, call_outcome.
      destruct Hreply as [-> | [code ->]]; rewrite Hbad; reflexivity. }
    unfold reply in Hout. rewrite Hout in Hend. eauto.
Qed.

(** *** The main block *)

Lemma call_outcome_transport_failure (e : exn) :
  transport_failure e -> call_outcome (Raise e) = Raise e.
Proof. destruct e; simpl; intros H; try contradiction; reflexivity. Qed.

Lemma main_usage (turns : nat) (argv : list string) (w : World) :
  (length argv < 2)%nat ->
  main cred turns argv w
  = (with_trace
       (trace w ++ [EPrint "Usage: python tingwu_transcribe.py <file_url>"]) w,
     Raise (SystemExit 1)).
Proof.
  intros Hlen. unfold main. apply Nat.ltb_lt in Hlen. rewrite Hlen. reflexivity.
Qed.

(** With a file URL on the command line the run starts with [create_task];
    what follows depends on its result. *)
Lemma main_created (turns : nat) (prog file_url : string) (rest : list string)
      (w : World) (p : ParseResult) :
  urlparse endpoint = Some p ->
  exists w1 : World,
    network w1 = network w /\
    sent w1 = S (sent w) /\
    actions (trace w1) = actions (trace w) ++ [Requested "POST" endpoint] /\
    match call_outcome (network w (sent w)) with
    | Raise e => main cred turns (prog :: file_url :: rest) w = (w1, Raise e)
    | Ok resp =>
        if truthy resp then
          forall items data task_id,
            resp = PyDict items ->
            items_get "Data" items = Some (PyDict data) ->
            items_get "TaskId" data = Some task_id ->
            exists w2 : World,
              network w2 = network w /\
              sent w2 = S (sent w) /\
              actions (trace w2) = actions (trace w) ++ [Requested "POST" endpoint] /\
              main cred turns (prog :: file_url :: rest) w
              = poll_loop cred turns task_id w2
        else main cred turns (prog :: file_url :: rest) w = (w1, Ok Finished)
    end.
Proof.
  intros Hurl. unfold main.
  change (length (prog :: file_url :: rest) <? 2)%nat with false.
  change (nth 1 (prog :: file_url :: rest) "") with file_url.
  cbv iota. erewrite bind_ok by reflexivity.
  set (w0 := with_trace _ w).
  destruct (create_task_run file_url w0 p Hurl)
    as (w1 & hdrs & Hrun & Hnet & _ & Hsent & Htrace).
  change (network w0) with (network w) in *.
  change (sent w0) with (sent w) in *.
  assert (Hact : actions (trace w1) = actions (trace w) ++ [Requested "POST" endpoint]).
  { rewrite Htrace. unfold w0. simpl. rewrite !actions_app. simpl.
    rewrite actions_error_report, app_nil_r. reflexivity. }
  exists w1. do 3 (split; [assumption|]).
  destruct (call_outcome (network w (sent w))) as [resp|e].
  2:{ apply bind_raise. exact Hrun. }
  rewrite (bind_ok _ _ _ _ _ Hrun).
  destruct (truthy resp); [|reflexivity].
  intros items data task_id -> Hdata Hid.
  unfold bind, lift, print, emit, ret. simpl.
  rewrite Hdata. simpl. rewrite Hid. simpl.
  eexists. split; [|split; [|split; [|reflexivity]]]; simpl.
  - assumption.
  - assumption.
  - rewrite !actions_app, Hact. simpl. rewrite !app_nil_r. reflexivity.
Qed.

(** C4 (amended): when the service answers the submission with a JSON
    document, [create_task] returns that parsed document after a single
    request, and the main block takes the job identifier from its nested
    field [Data.TaskId] and polls for it; when the service answers with an
    HTTP error status, [create_task] prints the status code and then the
    response body decoded as UTF-8, and returns [None] after that single
    request; when that body is not well-formed UTF-8 the decoding raises
    [UnicodeDecodeError] once the status code has been printed; either way
    the process ends without entering the polling loop: it neither sleeps
    nor sends another request. *)
Theorem create_task_outcomes (file_url : string) (p : ParseResult) (w : World) :
  urlparse endpoint = Some p ->
  (forall text resp,
      network w (sent w) = Ok text ->
      json_loads text = Some resp ->
      exists w', create_task cred file_url w = (w', Ok resp) /\
                 sent w' = S (sent w)) /\
  (forall text items data task_id prog rest turns,
      network w (sent w) = Ok text ->
      json_loads text = Some (PyDict items) ->
      items_get "Data" items = Some (PyDict data) ->
      items_get "TaskId" data = Some task_id ->
      exists w2,
        main cred turns (prog :: file_url :: rest) w
        = poll_loop cred turns task_id w2 /\
        sent w2 = S (sent w) /\
        actions (trace w2) = actions (trace w) ++ [Requested "POST" endpoint]) /\
  (forall code page,
      network w (sent w) = Raise (HTTPError code page) ->
      valid_utf8 page = true ->
      (exists w' hdrs,
          create_task cred file_url w = (w', Ok PyNone) /\
          sent w' = S (sent w) /\
          trace w' =
            trace w ++
            [ ERequest "POST" endpoint hdrs
                (Some (json_dumps
                   (create_task_body cred file_url
                      (epoch_int (clock w (2 + ticks w))))));
              EPrint ("HTTP Error: " +:+ pretty code);
              EPrint page ]) /\
      (forall prog rest turns,
          exists w',
            main cred turns (prog :: file_url :: rest) w = (w', Ok Finished) /\
            sent w' = S (sent w) /\
            actions (trace w') = actions (trace w) ++ [Requested "POST" endpoint])) /\
  (forall code page,
      network w (sent w) = Raise (HTTPError code page) ->
      valid_utf8 page = false ->
      (exists w' hdrs,
          create_task cred file_url w = (w', Raise UnicodeDecodeError) /\
          sent w' = S (sent w) /\
          trace w' =
            trace w ++
            [ ERequest "POST" endpoint hdrs
                (Some (json_dumps
                   (create_task_body cred file_url
                      (epoch_int (clock w (2 + ticks w))))));
              EPrint ("HTTP Error: " +:+ pretty code) ]) /\
      (forall prog rest turns,
          exists w',
            main cred turns (prog :: file_url :: rest) w
            = (w', Raise UnicodeDecodeError) /\
            sent w' = S (sent w) /\
            actions (trace w') = actions (trace w) ++ [Requested "POST" endpoint])).
Proof.
  intros Hurl. split; [|split; [|split]].
  - intros text resp Hnet Hloads.
    destruct (create_task_run file_url w p Hurl) as (w' & hdrs & Hrun & _ & _ & Hsent & _).
    rewrite Hnet in Hrun. simpl in Hrun. unfold py_json_loads in Hrun.
    rewrite (json_loads_str _ _ Hloads), Hloads in Hrun.
    exists w'. split; assumption.
  - intros text items data task_id prog rest turns Hnet Hloads Hdata Hid.
    destruct (main_created turns prog file_url rest w p Hurl) as (w1 & _ & _ & _ & Hmain).
    rewrite Hnet in Hmain. simpl in Hmain. unfold py_json_loads in Hmain.
    rewrite (json_loads_str _ _ Hloads), Hloads, (truthy_with_key _ _ _ Hdata) in Hmain.
    destruct (Hmain items data task_id eq_refl Hdata Hid) as (w2 & _ & Hsent & Hact & Heq).
    exists w2. repeat split; assumption.
  - intros code page Hnet Hvalid. split.
    + destruct (create_task_run file_url w p Hurl)
        as (w' & hdrs & Hrun & _ & _ & Hsent & Htrace).
      rewrite Hnet in Hrun, Htrace. simpl in Hrun, Htrace.
      rewrite Hvalid in Hrun, Htrace.
      exists w', hdrs. repeat split; assumption.
    + intros prog rest turns.
      destruct (main_created turns prog file_url rest w p Hurl)
        as (w1 & _ & Hsent & Hact & Hmain).
      rewrite Hnet in Hmain. simpl in Hmain. rewrite Hvalid in Hmain.
      exists w1. repeat split; assumption.
  - intros code page Hnet Hbad. split.
    + destruct (create_task_run file_url w p Hurl)
        as (w' & hdrs & Hrun & _ & _ & Hsent & Htrace).
      rewrite Hnet in Hrun, Htrace. simpl in Hrun, Htrace.
      rewrite Hbad in Hrun, Htrace.
      exists w', hdrs. repeat split; assumption.
    + intros prog rest turns.
      destruct (main_created turns prog file_url rest w p Hurl)
        as (w1 & _ & Hsent & Hact & Hmain).
      rewrite Hnet in Hmain. simpl in Hmain. rewrite Hbad in Hmain.
      exists w1. repeat split; assumption.
Qed.

(** C5 (amended): a command line without a file URL makes the process
    print the usage message and exit with status 1 before anything else; an
    HTTP error status whose body decodes as UTF-8 is caught by
    [create_task] and by [get_task], which print it and return [None]; when
    the body of the error does not decode, [UnicodeDecodeError] is raised
    inside the handler and escapes from both functions and from the main
    block; and a transport failure of either call (an unreachable network,
    a timeout) is not caught: [create_task] and [get_task] raise it, and it
    leaves the main block as an uncaught exception. *)
Theorem exceptions_of_a_run
    (file_url : string) (task_id : value) (p q : ParseResult) (w : World) :
  urlparse endpoint = Some p ->
  urlparse (status_query task_id) = Some q ->
  (forall turns argv,
      (length argv < 2)%nat ->
      main cred turns argv w
      = (with_trace
           (trace w ++ [EPrint "Usage: python tingwu_transcribe.py <file_url>"]) w,
         Raise (SystemExit 1))) /\
  (forall code page,
      network w (sent w) = Raise (HTTPError code page) ->
      valid_utf8 page = true ->
      (exists w', create_task cred file_url w = (w', Ok PyNone)) /\
      (exists w', get_task cred task_id w = (w', Ok PyNone))) /\
  (forall code page,
      network w (sent w) = Raise (HTTPError code page) ->
      valid_utf8 page = false ->
      (exists w', create_task cred file_url w = (w', Raise UnicodeDecodeError)) /\
      (exists w', get_task cred task_id w = (w', Raise UnicodeDecodeError)) /\
      (forall prog rest turns,
          exists w', main cred turns (prog :: file_url :: rest) w
                     = (w', Raise UnicodeDecodeError))) /\
  (forall e,
      network w (sent w) = Raise e ->
      transport_failure e ->
      (exists w', create_task cred file_url w = (w', Raise e)) /\
      (exists w', get_task cred task_id w = (w', Raise e)) /\
      (forall prog rest turns,
          exists w', main cred turns (prog :: file_url :: rest) w = (w', Raise e))).
Proof.
  intros Hp Hq.
  destruct (create_task_run file_url w p Hp) as (wc & hc & Hcreate & _).
  destruct (get_task_run task_id w q Hq) as (wg & hg & Hget & _).
  split; [|split; [|split]].
  - intros turns argv Hlen. apply main_usage, Hlen.
  - intros code page Hnet Hvalid. rewrite Hnet in Hcreate, Hget.
    simpl in Hcreate, Hget. rewrite Hvalid in Hcreate, Hget.
    split; [exists wc; exact Hcreate | exists wg; exact Hget].
  - intros code page Hnet Hbad. rewrite Hnet in Hcreate, Hget.
    simpl in Hcreate, Hget. rewrite Hbad in Hcreate, Hget.
    split; [exists wc; exact Hcreate|]. split; [exists wg; exact Hget|].
    intros prog rest turns.
    destruct (main_created turns prog file_url rest w p Hp) as (w1 & _ & _ & _ & Hmain).
    rewrite Hnet in Hmain. simpl in Hmain. rewrite Hbad in Hmain.
    exists w1. exact Hmain.
  - intros e Hnet Hfail.
    rewrite Hnet, (call_outcome_transport_failure e Hfail) in Hcreate, Hget.
    split; [exists wc; exact Hcreate|]. split; [exists wg; exact Hget|].
    intros prog rest turns.
    destruct (main_created turns prog file_url rest w p Hp) as (w1 & _ & _ & _ & Hmain).
    rewrite Hnet, (call_outcome_transport_failure e Hfail) in Hmain.
    exists w1. exact Hmain.
Qed.

End CallProperties.

(** ** The credentials *)

(** C2: the three lines that should read the credentials from the
    environment do not compile: each puts the call inside string quotes,
    which leaves a string literal next to a bare name.  Whatever the
    environment holds, the process stops with [SyntaxError] and no
    credential is bound, neither to the value of its variable nor to the
    empty string. *)
Theorem credentials_never_loaded (env : gmap string string) :
  Startup.parse Startup.access_key_id_tokens = None /\
  Startup.credentials env = Raise SyntaxError /\
  Startup.credentials env <> Ok (Startup.spec_credentials env).
Proof.
  split; [reflexivity|]. split; [reflexivity|]. discriminate.
Qed.

Example credentials_with_key_set :
  Startup.credentials {[ "ALIYUN_ACCESS_KEY_ID" := "LTAI-demo-id" ]} = Raise SyntaxError /\
  ACCESS_KEY_ID (Startup.spec_credentials {[ "ALIYUN_ACCESS_KEY_ID" := "LTAI-demo-id" ]})
  = "LTAI-demo-id".
Proof. split; vm_compute; reflexivity. Qed.

(** ** The theorems at concrete inputs *)

Lemma sign_sets_authorization_witness :
  urlparse (Runtime := Demo.runtime) Demo.status_url = Some Demo.status_parsed /\
  heap (Demo.holding Demo.query_headers) !! 1%positive = Some Demo.query_headers /\
  exists w',
    sign (rt := Demo.runtime) Demo.cred "GET" Demo.status_url 1%positive None
         (Demo.holding Demo.query_headers) = (w', Ok 1%positive) /\
    dict_get "Authorization" (deref 1%positive w') =
      Some ("ACS3-HMAC-SHA256 Credential=LTAI-demo-id,SignedHeaders=host;x-acs-action;x-acs-content-sha256;x-acs-date;x-acs-signature-nonce;x-acs-version,Signature="
            +:+ "988d3b904b68f966401410d225c41459c1bac730e83026a1218be417cb2af51e").
Proof.
  split; [vm_compute; reflexivity|]. split; [vm_compute; reflexivity|].
  destruct (sign_sets_authorization (rt := Demo.runtime) Demo.cred
              "GET" Demo.status_url 1%positive None (Demo.holding Demo.query_headers)
              Demo.status_parsed Demo.query_headers
              "GetTaskInfo" "2024-01-01T12:00:00Z" "0cc175b9c0f1b6a831c399e269772661"
              "2023-09-30")
    as (w' & Hrun & Hauth & _).
  - left. reflexivity.
  - vm_compute. reflexivity.
  - vm_compute. reflexivity.
  - reflexivity.
  - reflexivity.
  - reflexivity.
  - reflexivity.
  - exists w'. split; [exact Hrun|]. rewrite Hauth. vm_compute. reflexivity.
Defined.

Lemma sign_empty_body_hash_witness :
  urlparse (Runtime := Demo.runtime) Demo.status_url = Some Demo.status_parsed /\
  exists w',
    sign (rt := Demo.runtime) Demo.cred "GET" Demo.status_url 1%positive None
         (Demo.holding Demo.query_headers) = (w', Ok 1%positive) /\
    dict_get "x-acs-content-sha256" (deref 1%positive w') =
      Some "e3b0c44298fc1c149afbf4c8996fb92427ae41e4649b934ca495991b7852b855".
Proof.
  split; [vm_compute; reflexivity|].
  destruct (sign_empty_body_hash (rt := Demo.runtime) Demo.cred
              "GET" Demo.status_url 1%positive (Demo.holding Demo.query_headers)
              Demo.status_parsed Demo.query_headers
              "GetTaskInfo" "2024-01-01T12:00:00Z" "0cc175b9c0f1b6a831c399e269772661"
              "2023-09-30")
    as (_ & _ & w' & Hrun & Hhash & _).
  - vm_compute. reflexivity.
  - vm_compute. reflexivity.
  - reflexivity.
  - reflexivity.
  - reflexivity.
  - reflexivity.
  - exists w'. split; [exact Hrun | exact Hhash].
Defined.

Lemma canonical_block_fixed_order_witness :
  NoDup (map fst Demo.query_headers) /\
  Permutation Demo.query_headers (rev Demo.query_headers) /\
  exists block w1 w2,
    canonical_headers "tingwu.cn-beijing.aliyuncs.com" (body_hash None) 1%positive
      (fst (setitem 1%positive "x-acs-content-sha256" (body_hash None)
              (Demo.holding Demo.query_headers)))
    = (w1, Ok block) /\
    canonical_headers "tingwu.cn-beijing.aliyuncs.com" (body_hash None) 1%positive
      (fst (setitem 1%positive "x-acs-content-sha256" (body_hash None)
              (Demo.holding (rev Demo.query_headers))))
    = (w2, Ok block).
Proof.
  assert (Hnd : NoDup (map fst Demo.query_headers)).
  { apply (bool_decide_unpack _). vm_compute. exact I. }
  assert (Hperm : Permutation Demo.query_headers (rev Demo.query_headers)).
  { apply Permutation_rev. }
  split; [exact Hnd|]. split; [exact Hperm|].
  destruct (canonical_block_fixed_order (rt := Demo.runtime) Demo.cred
              "GET" Demo.status_url None Demo.status_parsed
              1%positive 1%positive
              (Demo.holding Demo.query_headers) (Demo.holding (rev Demo.query_headers))
              Demo.query_headers (rev Demo.query_headers)
              "GetTaskInfo" "2024-01-01T12:00:00Z" "0cc175b9c0f1b6a831c399e269772661"
              "2023-09-30")
    as (_ & Hfirst & Hsecond & _).
  - vm_compute. reflexivity.
  - vm_compute. reflexivity.
  - vm_compute. reflexivity.
  - reflexivity.
  - reflexivity.
  - reflexivity.
  - reflexivity.
  - exact Hnd.
  - exact Hperm.
  - do 3 eexists. split; [exact Hfirst | exact Hsecond].
Defined.

Lemma sign_deterministic_witness :
  dict_get "Authorization"
    (deref 1%positive
       (fst (sign (rt := Demo.runtime) Demo.cred "GET" Demo.status_url 1%positive None
                  (Demo.holding Demo.query_headers))))
  = dict_get "Authorization"
      (deref 2%positive
         (fst (sign (rt := Demo.runtime) Demo.cred "GET" Demo.status_url 2%positive None
                    (with_heap {[ 2%positive := Demo.query_headers ]}
                       (with_ticks 7 (Demo.world (fun _ => Raise TimeoutError))))))).
Proof.
  destruct (sign_deterministic (rt := Demo.runtime) Demo.cred
              "GET" Demo.status_url None Demo.query_headers 1%positive 2%positive
              (Demo.holding Demo.query_headers)
              (with_heap {[ 2%positive := Demo.query_headers ]}
                 (with_ticks 7 (Demo.world (fun _ => Raise TimeoutError)))))
    as (w1' & w2' & r1 & r2 & Hrun1 & Hrun2 & _ & _ & Hauth & _).
  - vm_compute. reflexivity.
  - vm_compute. reflexivity.
  - rewrite Hrun1, Hrun2. exact Hauth.
Defined.

Lemma sign_mutates_in_place_witness :
  exists w' d',
    sign (rt := Demo.runtime) Demo.cred "GET" Demo.status_url 1%positive None
         (Demo.holding Demo.query_headers) = (w', Ok 1%positive) /\
    heap w' !! 1%positive = Some d' /\
    dict_get "x-acs-date" d' = Some "2024-01-01T12:00:00Z".
Proof.
  destruct (sign_mutates_in_place (rt := Demo.runtime) Demo.cred
              "GET" Demo.status_url 1%positive None (Demo.holding Demo.query_headers)
              Demo.status_parsed Demo.query_headers
              "GetTaskInfo" "2024-01-01T12:00:00Z" "0cc175b9c0f1b6a831c399e269772661"
              "2023-09-30")
    as (w' & d' & Hrun & Hheap & _ & _ & Hframe & _).
  - vm_compute. reflexivity.
  - vm_compute. reflexivity.
  - reflexivity.
  - reflexivity.
  - reflexivity.
  - reflexivity.
  - exists w', d'. split; [exact Hrun|]. split; [exact Hheap|].
    rewrite Hframe by discriminate. reflexivity.
Defined.

Lemma sign_key_error_witness :
  (exists w',
      sign (rt := Demo.runtime) Demo.cred "GET" Demo.status_url 1%positive None
           (Demo.holding [("x-acs-action", "GetTaskInfo")])
      = (w', Raise (KeyError "x-acs-date")) /\
      heap w' !! 1%positive
      = Some [ ("x-acs-action", "GetTaskInfo");
               ("x-acs-content-sha256", body_hash None) ]) /\
  (exists w',
      sign (rt := Demo.runtime) Demo.cred "GET" Demo.status_url 1%positive None
           (Demo.holding Demo.query_headers) = (w', Ok 1%positive)).
Proof.
  split.
  - destruct (sign_key_error (rt := Demo.runtime) Demo.cred
                "GET" Demo.status_url 1%positive None
                (Demo.holding [("x-acs-action", "GetTaskInfo")])
                Demo.status_parsed [("x-acs-action", "GetTaskInfo")])
      as [Hmissing _].
    + vm_compute. reflexivity.
    + vm_compute. reflexivity.
    + destruct Hmissing as (k & w' & Hrun & _ & _ & Hfirst & Hheap & _).
      * exists "x-acs-date". split; [simpl; auto | reflexivity].
      * injection Hfirst as <-. exists w'. split; [exact Hrun | exact Hheap].
  - destruct (sign_key_error (rt := Demo.runtime) Demo.cred
                "GET" Demo.status_url 1%positive None
                (Demo.holding Demo.query_headers)
                Demo.status_parsed Demo.query_headers)
      as [_ Hpresent].
    + vm_compute. reflexivity.
    + vm_compute. reflexivity.
    + apply Hpresent. intros k Hin. simpl in Hin.
      destruct Hin as [<-|[<-|[<-|[<-|[]]]]]; eexists; reflexivity.
Defined.

(** Scenario A: PENDING, RUNNING, then COMPLETED. *)
Lemma polling_loop_behaviour_witness :
  urlparse (Runtime := Demo.runtime) (status_query (rt := Demo.runtime) (PyStr "t-1"))
  = Some Demo.status_parsed /\
  exists w',
    poll_loop (rt := Demo.runtime) Demo.cred 5 (PyStr "t-1")
      (Demo.world (Demo.script
         [ Ok (Demo.dumps (Demo.reported "PENDING"));
           Ok (Demo.dumps (Demo.reported "RUNNING"));
           Ok (Demo.dumps (Demo.reported "COMPLETED")) ]))
    = (w', Ok Finished).
Proof.
  split; [vm_compute; reflexivity|].
  destruct (polling_loop_behaviour (rt := Demo.runtime) Demo.cred
              (PyStr "t-1") Demo.status_parsed
              (Demo.world (Demo.script
                 [ Ok (Demo.dumps (Demo.reported "PENDING"));
                   Ok (Demo.dumps (Demo.reported "RUNNING"));
                   Ok (Demo.dumps (Demo.reported "COMPLETED")) ])))
    as (_ & Hends & _).
  - vm_compute. reflexivity.
  - apply (Hends 5%nat). exists 2%nat. split; [lia|]. split.
    + eapply terminal_status with (status := Demo.reported "COMPLETED");
        [vm_compute; reflexivity | reflexivity | left; reflexivity].
    + intros [|[|i]] Hi; [| |lia].
      * eapply other_status with (ts := PyStr "PENDING");
          [vm_compute; reflexivity | reflexivity | reflexivity
           | discriminate | discriminate].
      * eapply other_status with (ts := PyStr "RUNNING");
          [vm_compute; reflexivity | reflexivity | reflexivity
           | discriminate | discriminate].
Defined.

(** Scenario C: the submission is answered with HTTP 403. *)
Lemma create_task_outcomes_witness :
  urlparse (Runtime := Demo.runtime) endpoint <> None /\
  exists w',
    main (rt := Demo.runtime) Demo.cred 5
      [ "tingwu_transcribe.py"; "https://example.com/a.mp3" ]
      (Demo.world (Demo.script [ Raise (HTTPError 403 "Forbidden") ]))
    = (w', Ok Finished) /\
    sent w' = 1%nat.
Proof.
  split; [vm_compute; discriminate|].
  destruct (create_task_outcomes (rt := Demo.runtime) Demo.cred
              "https://example.com/a.mp3"
              {| scheme := "https"; netloc := "tingwu.cn-beijing.aliyuncs.com";
                 path := "/"; params := ""; query := ""; fragment := "" |}
              (Demo.world (Demo.script [ Raise (HTTPError 403 "Forbidden") ])))
    as (_ & _ & Hrefused & _).
  - vm_compute. reflexivity.
  - destruct (Hrefused 403 "Forbidden" eq_refl eq_refl) as [_ Hmain].
    destruct (Hmain "tingwu_transcribe.py" [] 5%nat) as (w' & Hrun & Hsent & _).
    exists w'. split; [exact Hrun | exact Hsent].
Defined.

Lemma exceptions_of_a_run_witness :
  (exists w',
      main (rt := Demo.runtime) Demo.cred 5 [ "tingwu_transcribe.py" ]
        (Demo.world (fun _ => Raise (URLError "unreachable")))
      = (w', Raise (SystemExit 1))) /\
  (exists w',
      get_task (rt := Demo.runtime) Demo.cred (PyStr "t-1")
        (Demo.world (fun _ => Raise (URLError "unreachable")))
      = (w', Raise (URLError "unreachable"))).
Proof.
  destruct (exceptions_of_a_run (rt := Demo.runtime) Demo.cred
              "https://example.com/a.mp3" (PyStr "t-1")
              {| scheme := "https"; netloc := "tingwu.cn-beijing.aliyuncs.com";
                 path := "/"; params := ""; query := ""; fragment := "" |}
              Demo.status_parsed
              (Demo.world (fun _ => Raise (URLError "unreachable"))))
    as (Husage & _ & _ & Hfail).
  - vm_compute. reflexivity.
  - vm_compute. reflexivity.
  - split.
    + eexists. apply Husage. simpl. lia.
    + destruct (Hfail (URLError "unreachable") eq_refl I) as (_ & Hget & _).
      exact Hget.
Defined.

(** ** Where the claims of the specification fail *)

(** C3 as stated: a poll that fails in the transport reports no terminal
    status, yet the loop does not go on: it ends with the exception after
    that one poll. *)
Lemma polling_ends_on_transport_failure :
  ~ terminal (rt := Demo.runtime) (Raise (URLError "unreachable")) /\
  snd (poll_loop (rt := Demo.runtime) Demo.cred 3 (PyStr "t-1")
         (Demo.world (fun _ => Raise (URLError "unreachable"))))
  = Raise (URLError "unreachable") /\
  sent (fst (poll_loop (rt := Demo.runtime) Demo.cred 3 (PyStr "t-1")
               (Demo.world (fun _ => Raise (URLError "unreachable")))))
  = 1%nat.
Proof.
  split; [intros H; inversion H|].
  split; vm_compute; reflexivity.
Qed.

(** C4 as stated: [create_task] returns the whole parsed response, not the
    job identifier found under [Data.TaskId]. *)
Lemma create_task_returns_the_response :
  snd (create_task (rt := Demo.runtime) Demo.cred "https://example.com/a.mp3"
         (Demo.world (Demo.script [ Ok (Demo.dumps (Demo.created "t-1")) ])))
  = Ok (PyDict [ ("Data", PyDict [ ("TaskId", PyStr "t-1") ]) ]) /\
  match subscript (PyDict [ ("Data", PyDict [ ("TaskId", PyStr "t-1") ]) ]) "Data" with
  | Ok data => subscript data "TaskId"
  | Raise e => Raise e
  end = Ok (PyStr "t-1") /\
  PyDict [ ("Data", PyDict [ ("TaskId", PyStr "t-1") ]) ] <> PyStr "t-1".
Proof.
  split; [vm_compute; reflexivity|]. split; [reflexivity | discriminate].
Qed.

(** C5 as stated: with a file URL on the command line and a network that
    cannot be reached, the [URLError] of the submission leaves the main
    block uncaught. *)
Lemma transport_failure_escapes_main :
  snd (main (rt := Demo.runtime) Demo.cred 3
         [ "tingwu_transcribe.py"; "https://example.com/a.mp3" ]
         (Demo.world (fun _ => Raise (URLError "unreachable"))))
  = Raise (URLError "unreachable").
Proof. vm_compute. reflexivity. Qed.

(** C10 as stated: with the four required headers present, [sign] does not
    return when [urlparse] rejects the URL; and with a header missing it then
    raises [ValueError], not [KeyError], and has stored no content hash. *)
Lemma sign_raises_on_rejected_url :
  dict_get "x-acs-action" Demo.query_headers = Some "GetTaskInfo" /\
  dict_get "x-acs-date" Demo.query_headers = Some "2024-01-01T12:00:00Z" /\
  dict_get "x-acs-signature-nonce" Demo.query_headers
  = Some "0cc175b9c0f1b6a831c399e269772661" /\
  dict_get "x-acs-version" Demo.query_headers = Some "2023-09-30" /\
  sign (rt := Demo.runtime) Demo.cred "GET" "http://[" 1%positive None
       (Demo.holding Demo.query_headers)
  = (Demo.holding Demo.query_headers, Raise (ValueError "Invalid URL")) /\
  sign (rt := Demo.runtime) Demo.cred "GET" "http://[" 1%positive None
       (Demo.holding [ ("x-acs-action", "GetTaskInfo") ])
  = (Demo.holding [ ("x-acs-action", "GetTaskInfo") ], Raise (ValueError "Invalid URL")).
Proof. repeat split; reflexivity. Qed.

(** ** Decoding, on known byte sequences *)

Example decode_accepts_utf8 :
  valid_utf8 "plain ASCII" = true /\
  valid_utf8 (bytes_of [195; 169]) = true /\
  valid_utf8 (bytes_of [226; 130; 172]) = true /\
  valid_utf8 (bytes_of [240; 159; 152; 128]) = true /\
  valid_utf8 (bytes_of [244; 143; 191; 191]) = true.
Proof. repeat split; reflexivity. Qed.

Example decode_rejects_malformed :
  valid_utf8 (bytes_of [255; 254]) = false /\
  valid_utf8 (bytes_of [128]) = false /\
  valid_utf8 (bytes_of [192; 128]) = false /\
  valid_utf8 (bytes_of [226; 130]) = false /\
  valid_utf8 (bytes_of [224; 128; 128]) = false /\
  valid_utf8 (bytes_of [237; 160; 128]) = false /\
  valid_utf8 (bytes_of [244; 144; 128; 128]) = false.
Proof. repeat split; reflexivity. Qed.

(** ** The end-to-end scenarios of the specification *)

(** A: PENDING, RUNNING, COMPLETED: the loop ends on the third poll. *)
Example scenario_completed_on_third_poll :
  let run :=
    main (rt := Demo.runtime) Demo.cred 10
      [ "tingwu_transcribe.py"; "https://example.com/a.mp3" ]
      (Demo.world (Demo.script
         [ Ok (Demo.dumps (Demo.created "t-1"));
           Ok (Demo.dumps (Demo.reported "PENDING"));
           Ok (Demo.dumps (Demo.reported "RUNNING"));
           Ok (Demo.dumps (Demo.reported "COMPLETED")) ])) in
  snd run = Ok Finished /\
  actions (trace (fst run))
  = [ Requested "POST" "https://tingwu.cn-beijing.aliyuncs.com/";
      Slept 10; Requested "GET" "https://tingwu.cn-beijing.aliyuncs.com/?TaskId=t-1";
      Slept 10; Requested "GET" "https://tingwu.cn-beijing.aliyuncs.com/?TaskId=t-1";
      Slept 10; Requested "GET" "https://tingwu.cn-beijing.aliyuncs.com/?TaskId=t-1" ].
Proof. split; vm_compute; reflexivity. Qed.

(** B: FAILED on the first poll: the loop ends at once. *)
Example scenario_failed_on_first_poll :
  let run :=
    main (rt := Demo.runtime) Demo.cred 10
      [ "tingwu_transcribe.py"; "https://example.com/a.mp3" ]
      (Demo.world (Demo.script
         [ Ok (Demo.dumps (Demo.created "t-1"));
           Ok (Demo.dumps (Demo.reported "FAILED")) ])) in
  snd run = Ok Finished /\ sent (fst run) = 2%nat.
Proof. split; vm_compute; reflexivity. Qed.

(** C: HTTP 403 on submission: the error is printed and nothing is polled. *)
Example scenario_submission_refused :
  let run :=
    main (rt := Demo.runtime) Demo.cred 10
      [ "tingwu_transcribe.py"; "https://example.com/a.mp3" ]
      (Demo.world (Demo.script [ Raise (HTTPError 403 "Forbidden") ])) in
  snd run = Ok Finished /\
  actions (trace (fst run)) = [ Requested "POST" "https://tingwu.cn-beijing.aliyuncs.com/" ] /\
  In (EPrint "HTTP Error: 403") (trace (fst run)) /\
  In (EPrint "Forbidden") (trace (fst run)).
Proof.
  split; [vm_compute; reflexivity|]. split; [vm_compute; reflexivity|].
  split; vm_compute; auto 10.
Qed.

(** An HTTP error status during polling counts as still running: an endless
    run of them keeps the loop going. *)
Example scenario_http_errors_keep_polling :
  let run :=
    poll_loop (rt := Demo.runtime) Demo.cred 4 (PyStr "t-1")
      (Demo.world (fun _ => Raise (HTTPError 500 "Internal Server Error"))) in
  snd run = Ok Polling /\ sent (fst run) = 4%nat.
Proof. split; vm_compute; reflexivity. Qed.

(** * Further properties of the script *)

(** ** Header mappings: writing a key *)

Lemma dict_set_same (k v : string) (d : pydict) :
  dict_get k d = Some v -> dict_set k v d = d.
Proof.
  induction d as [|[k' v'] d IH]; simpl; [discriminate|].
  destruct (String.eqb k' k) eqn:E.
  - intros [= ->]. reflexivity.
  - intros H. rewrite IH by assumption. reflexivity.
Qed.

Lemma dict_set_fresh (k v : string) (d : pydict) :
  dict_get k d = None -> dict_set k v d = d ++ [(k, v)].
Proof.
  induction d as [|[k' v'] d IH]; simpl; [reflexivity|].
  destruct (String.eqb k' k) eqn:E; [discriminate|].
  intros H. rewrite IH by assumption. reflexivity.
Qed.

(** ** sign: what is signed and what is left alone *)

Section SignFurther.

Context {rt : Runtime}.
Variable cred : Credentials.

(** X1: a URL that [urlparse] rejects makes [sign] raise [ValueError] at
    line 21, before line 31: the mapping is left exactly as it was, without
    the content hash that a later [KeyError] leaves behind. *)
Theorem sign_rejected_url_changes_nothing
    (method url : string) (headers : loc) (body : option string) (w : World) :
  urlparse url = None ->
  exists msg : string,
    sign cred method url headers body w = (w, Raise (ValueError msg)).
Proof.
  intros Hurl. eexists. apply sign_unparsed. exact Hurl.
Qed.

(** X2: the [Authorization] value and the content hash depend on the call
    only through the method, the network location, the query and the path
    of the URL (an empty path counting as [/]), the body (an absent body
    counting as the empty string) and the values of the four required
    headers.  The scheme, the fragment and the parameters of the URL, and
    every other entry of the mapping, are not signed. *)
Theorem signature_covers_only_signed_parts
    (method url1 url2 : string) (body1 body2 : option string)
    (l1 l2 : loc) (w1 w2 : World) (p1 p2 : ParseResult) (d1 d2 : pydict) :
  urlparse url1 = Some p1 ->
  urlparse url2 = Some p2 ->
  netloc p1 = netloc p2 ->
  query p1 = query p2 ->
  str_or (path p1) "/" = str_or (path p2) "/" ->
  default "" body1 = default "" body2 ->
  heap w1 !! l1 = Some d1 ->
  heap w2 !! l2 = Some d2 ->
  (forall k, In k required_headers ->
             is_Some (dict_get k d1) /\ dict_get k d1 = dict_get k d2) ->
  exists (w1' w2' : World) (auth bhash : string),
    sign cred method url1 l1 body1 w1 = (w1', Ok l1) /\
    sign cred method url2 l2 body2 w2 = (w2', Ok l2) /\
    dict_get "Authorization" (deref l1 w1') = Some auth /\
    dict_get "Authorization" (deref l2 w2') = Some auth /\
    dict_get "x-acs-content-sha256" (deref l1 w1') = Some bhash /\
    dict_get "x-acs-content-sha256" (deref l2 w2') = Some bhash.
Proof.
  intros Hu1 Hu2 Hnet Hq Hpath Hbody H1 H2 Hreq.
  destruct (Hreq "x-acs-action") as [[a Ha] Ha']; [simpl; auto|].
  destruct (Hreq "x-acs-date") as [[dt Hd] Hd']; [simpl; auto|].
  destruct (Hreq "x-acs-signature-nonce") as [[n Hn] Hn']; [simpl; auto|].
  destruct (Hreq "x-acs-version") as [[v Hv] Hv']; [simpl; auto 6|].
  rewrite Ha in Ha'. rewrite Hd in Hd'. rewrite Hn in Hn'. rewrite Hv in Hv'.
  assert (Hhash : body_hash body1 = body_hash body2).
  { unfold body_hash. rewrite Hbody. reflexivity. }
  assert (Hauth : authorization_for cred method p1 body1 a dt n v
                  = authorization_for cred method p2 body2 a dt n v).
  { unfold authorization_for. rewrite Hnet, Hq, Hpath, Hhash. reflexivity. }
  do 2 eexists. exists (authorization_for cred method p1 body1 a dt n v), (body_hash body1).
  split; [apply (sign_run cred method url1 l1 body1 w1 p1 d1 a dt n v);
          auto using deref_live|].
  split; [apply (sign_run cred method url2 l2 body2 w2 p2 d2 a dt n v);
          auto using deref_live|].
  rewrite !deref_with_heap_insert. unfold signed_dict.
  rewrite !dict_get_set_eq, <- Hauth.
  rewrite !(dict_get_set_ne "Authorization" "x-acs-content-sha256") by discriminate.
  rewrite !dict_get_set_eq, <- Hhash. auto.
Qed.

(** X3: signing is idempotent: a second call of [sign] with the same
    arguments on the mapping the first call returned writes the same two
    values again and leaves the whole world as the first call left it. *)
Theorem sign_twice
    (method url : string) (headers : loc) (body : option string) (w : World)
    (p : ParseResult) (d : pydict) (a dt n v : string) :
  urlparse url = Some p ->
  heap w !! headers = Some d ->
  dict_get "x-acs-action" d = Some a ->
  dict_get "x-acs-date" d = Some dt ->
  dict_get "x-acs-signature-nonce" d = Some n ->
  dict_get "x-acs-version" d = Some v ->
  exists w1 : World,
    sign cred method url headers body w = (w1, Ok headers) /\
    sign cred method url headers body w1 = (w1, Ok headers).
Proof.
  intros Hurl Hl Ha Hd Hn Hv.
  set (sd := signed_dict cred method p body a dt n v d).
  exists (with_heap (<[headers := sd]> (heap w)) w).
  split; [apply (sign_run cred method url headers body w p d a dt n v);
          auto using deref_live|].
  assert (Hkeep : forall k, k <> "x-acs-content-sha256" -> k <> "Authorization" ->
                            dict_get k sd = dict_get k d).
  { intros k K1 K2. unfold sd, signed_dict.
    rewrite !dict_get_set_ne by congruence. reflexivity. }
  rewrite (sign_run cred method url headers body _ p sd a dt n v);
    try (rewrite Hkeep by discriminate; assumption);
    [|exact Hurl | apply deref_with_heap_insert].
  f_equal. unfold with_heap. simpl. rewrite insert_insert_eq.
  assert (Hsame : signed_dict cred method p body a dt n v sd = sd).
  { unfold signed_dict at 1.
    rewrite (dict_set_same "x-acs-content-sha256" (body_hash body) sd).
    - apply dict_set_same. unfold sd, signed_dict. apply dict_get_set_eq.
    - unfold sd, signed_dict. rewrite dict_get_set_ne by discriminate.
      apply dict_get_set_eq. }
  rewrite Hsame. reflexivity.
Qed.

(** X4: on a mapping that has neither [x-acs-content-sha256] nor
    [Authorization], [sign] keeps every entry where it was and appends the
    two new entries at the end, the content hash first: the headers go out
    in that order. *)
Theorem sign_appends_new_entries
    (method url : string) (headers : loc) (body : option string) (w : World)
    (p : ParseResult) (d : pydict) (a dt n v : string) :
  urlparse url = Some p ->
  heap w !! headers = Some d ->
  dict_get "x-acs-action" d = Some a ->
  dict_get "x-acs-date" d = Some dt ->
  dict_get "x-acs-signature-nonce" d = Some n ->
  dict_get "x-acs-version" d = Some v ->
  dict_get "x-acs-content-sha256" d = None ->
  dict_get "Authorization" d = None ->
  exists w' : World,
    sign cred method url headers body w = (w', Ok headers) /\
    heap w' !! headers =
      Some (d ++ [ ("x-acs-content-sha256", body_hash body);
                   ("Authorization", authorization_for cred method p body a dt n v) ]).
Proof.
  intros Hurl Hl Ha Hd Hn Hv Hsha Hauth.
  eexists. split.
  { apply (sign_run cred method url headers body w p d a dt n v); auto using deref_live. }
  simpl. rewrite lookup_insert_eq. f_equal. unfold signed_dict.
  rewrite (dict_set_fresh "x-acs-content-sha256" _ d Hsha).
  rewrite dict_set_fresh.
  - rewrite <- app_assoc. reflexivity.
  - rewrite <- (dict_set_fresh "x-acs-content-sha256" (body_hash body) d Hsha).
    rewrite dict_get_set_ne by discriminate. exact Hauth.
Qed.

End SignFurther.

(** ** The requests that go out *)

Section Requests.

Context {rt : Runtime}.
Variable cred : Credentials.

Lemma signed_dict_appended (method : string) (p : ParseResult) (body : option string)
      (a dt n v : string) (d : pydict) :
  dict_get "x-acs-content-sha256" d = None ->
  dict_get "Authorization" d = None ->
  signed_dict cred method p body a dt n v d =
  d ++ [ ("x-acs-content-sha256", body_hash body);
         ("Authorization", authorization_for cred method p body a dt n v) ].
Proof.
  intros Hsha Hauth. unfold signed_dict.
  rewrite (dict_set_fresh "x-acs-content-sha256" _ d Hsha).
  rewrite dict_set_fresh.
  - rewrite <- app_assoc. reflexivity.
  - rewrite <- (dict_set_fresh "x-acs-content-sha256" (body_hash body) d Hsha).
    rewrite dict_get_set_ne by discriminate. exact Hauth.
Qed.

(** The whole effect of [get_task] on the world. *)
Lemma get_task_effect (task_id : value) (w : World) (p : ParseResult) :
  urlparse (status_query task_id) = Some p ->
  let date := utc_iso (clock w (ticks w)) in
  let nonce := md5_hexdigest (Hashlib.encode (epoch_str (clock w (S (ticks w))))) in
  let hdrs :=
    [ ("x-acs-action", "GetTaskInfo");
      ("x-acs-version", "2023-09-30");
      ("x-acs-date", date);
      ("x-acs-signature-nonce", nonce);
      ("x-acs-content-sha256", empty_sha256);
      ("Authorization",
       authorization_for cred "GET" p None "GetTaskInfo" date nonce "2023-09-30") ] in
  let w' := fst (get_task cred task_id w) in
  snd (get_task cred task_id w) = call_outcome (network w (sent w)) /\
  heap w' = <[fresh (dom (heap w)) := hdrs]> (heap w) /\
  ticks w' = S (S (ticks w)) /\
  sent w' = S (sent w) /\
  trace w' = trace w ++ ERequest "GET" (status_query task_id) hdrs None
                          :: error_report (network w (sent w)).
Proof.
  intros Hurl date nonce hdrs w'. unfold w', get_task. fold (status_query task_id).
  erewrite bind_ok by reflexivity.
  erewrite bind_ok by reflexivity.
  erewrite bind_ok by reflexivity.
  erewrite bind_ok.
  2:{ eapply sign_run; [exact Hurl | apply deref_with_heap_insert | reflexivity ..]. }
  rewrite signed_dict_appended by reflexivity.
  rewrite body_hash_none.
  unfold try_except_HTTPError, bind, urlopen, lift, decode, print, emit, ret.
  rewrite deref_with_heap_insert. simpl. rewrite insert_insert_eq.
  destruct (network w (sent w)) as [raw|e] eqn:Hnet; simpl.
  - destruct (valid_utf8 raw); simpl; [|repeat split; reflexivity].
    unfold py_json_loads. destruct (json_loads raw) as [status|]; simpl;
      repeat split; reflexivity.
  - destruct e; simpl; try (repeat split; reflexivity).
    match goal with
    | |- context [valid_utf8 ?b] => destruct (valid_utf8 b)
    end; simpl; repeat split; rewrite <- ?app_assoc; reflexivity.
Qed.

(** The whole effect of [create_task] on the world. *)
Lemma create_task_effect (file_url : string) (w : World) (p : ParseResult) :
  urlparse endpoint = Some p ->
  let date := utc_iso (clock w (ticks w)) in
  let nonce := md5_hexdigest (Hashlib.encode (epoch_str (clock w (S (ticks w))))) in
  let body :=
    json_dumps (create_task_body cred file_url (epoch_int (clock w (S (S (ticks w)))))) in
  let hdrs :=
    [ ("Content-Type", "application/json");
      ("x-acs-action", "CreateTask");
      ("x-acs-version", "2023-09-30");
      ("x-acs-date", date);
      ("x-acs-signature-nonce", nonce);
      ("x-acs-content-sha256", Hashlib.sha256_hexdigest (Hashlib.encode body));
      ("Authorization",
       authorization_for cred "POST" p (Some body) "CreateTask" date nonce "2023-09-30") ] in
  let w' := fst (create_task cred file_url w) in
  snd (create_task cred file_url w) = call_outcome (network w (sent w)) /\
  heap w' = <[fresh (dom (heap w)) := hdrs]> (heap w) /\
  ticks w' = S (S (S (ticks w))) /\
  sent w' = S (sent w) /\
  trace w' = trace w ++ ERequest "POST" endpoint hdrs (Some body)
                          :: error_report (network w (sent w)).
Proof.
  intros Hurl date nonce body hdrs w'. unfold w', create_task.
  erewrite bind_ok by reflexivity.
  erewrite bind_ok by reflexivity.
  erewrite bind_ok by reflexivity.
  erewrite bind_ok by reflexivity.
  erewrite bind_ok.
  2:{ eapply sign_run; [exact Hurl | apply deref_with_heap_insert | reflexivity ..]. }
  rewrite signed_dict_appended by reflexivity.
  rewrite body_hash_default.
  unfold try_except_HTTPError, bind, urlopen, lift, decode, print, emit, ret.
  rewrite deref_with_heap_insert. simpl. rewrite insert_insert_eq.
  destruct (network w (sent w)) as [raw|e] eqn:Hnet; simpl.
  - destruct (valid_utf8 raw); simpl; [|repeat split; reflexivity].
    unfold py_json_loads. destruct (json_loads raw) as [status|]; simpl;
      repeat split; reflexivity.
  - destruct e; simpl; try (repeat split; reflexivity).
    match goal with
    | |- context [valid_utf8 ?b] => destruct (valid_utf8 b)
    end; simpl; repeat split; rewrite <- ?app_assoc; reflexivity.
Qed.

End Requests.

(** ** Invariants of a whole run *)

Section Invariants.

Context {rt : Runtime}.
Variable cred : Credentials.

(** *** Composition *)

Lemma emits_bind {A B} (P : event -> Prop) (m : M A) (k : A -> M B) :
  emits P m -> (forall a, emits P (k a)) -> emits P (bind m k).
Proof.
  intros Hm Hk w. unfold bind.
  destruct (Hm w) as (evs & Htr & Hall).
  destruct (m w) as [w1 [a|e]]; simpl in *.
  - destruct (Hk a w1) as (evs' & Htr' & Hall').
    exists (evs ++ evs'). rewrite Htr', Htr, <- app_assoc.
    split; [reflexivity | apply Forall_app; split; assumption].
  - exists evs. split; assumption.
Qed.

Lemma emits_nothing {A} (P : event -> Prop) (m : M A) :
  (forall w, trace (fst (m w)) = trace w) -> emits P m.
Proof.
  intros H w. exists []. rewrite app_nil_r. split; [apply H | constructor].
Qed.

Lemma emits_event (P : event -> Prop) (e : event) : P e -> emits P (emit e).
Proof.
  intros H w. exists [e]. split; [reflexivity | repeat constructor; exact H].
Qed.

Lemma preserves_bind {A B} (m : M A) (k : A -> M B) :
  preserves_heap m -> (forall a, preserves_heap (k a)) -> preserves_heap (bind m k).
Proof.
  intros Hm Hk w l d Hl. unfold bind.
  specialize (Hm w l d Hl).
  destruct (m w) as [w1 [a|e]]; simpl in *.
  - apply Hk. exact Hm.
  - exact Hm.
Qed.

Lemma preserves_same_heap {A} (m : M A) :
  (forall w, heap (fst (m w)) = heap w) -> preserves_heap m.
Proof. intros H w l d Hl. rewrite H. exact Hl. Qed.

Lemma lookup_alloc (h : gmap loc pydict) (d0 d : pydict) (l : loc) :
  h !! l = Some d -> <[fresh (dom h) := d0]> h !! l = Some d.
Proof.
  intros Hl. rewrite lookup_insert_ne; [exact Hl|].
  intros Heq. apply (is_fresh (dom h)). rewrite Heq. apply elem_of_dom. eauto.
Qed.

(** *** The two calls *)

Lemma error_report_prints (P : event -> Prop) (reply : result string) :
  (forall line, P (EPrint line)) -> Forall P (error_report reply).
Proof.
  intros HP. destruct reply as [text|[]]; simpl; repeat constructor; try apply HP.
  destruct (valid_utf8 body); repeat constructor; apply HP.
Qed.

Lemma get_task_unparsed (task_id : value) (w : World) :
  urlparse (status_query task_id) = None ->
  exists d0,
    get_task cred task_id w =
    (with_heap (<[fresh (dom (heap w)) := d0]> (heap w))
       (with_ticks (S (S (ticks w))) w),
     Raise (ValueError "Invalid URL")).
Proof.
  intros Hurl. unfold get_task. fold (status_query task_id).
  erewrite bind_ok by reflexivity.
  erewrite bind_ok by reflexivity.
  erewrite bind_ok by reflexivity.
  erewrite bind_raise by (apply sign_unparsed; exact Hurl).
  eexists. reflexivity.
Qed.

Lemma create_task_unparsed (file_url : string) (w : World) :
  urlparse endpoint = None ->
  exists d0,
    create_task cred file_url w =
    (with_heap (<[fresh (dom (heap w)) := d0]> (heap w))
       (with_ticks (S (S (S (ticks w)))) w),
     Raise (ValueError "Invalid URL")).
Proof.
  intros Hurl. unfold create_task.
  erewrite bind_ok by reflexivity.
  erewrite bind_ok by reflexivity.
  erewrite bind_ok by reflexivity.
  erewrite bind_ok by reflexivity.
  erewrite bind_raise by (apply sign_unparsed; exact Hurl).
  eexists. reflexivity.
Qed.

Lemma get_task_well_signed (task_id : value) :
  emits (well_signed cred) (get_task cred task_id).
Proof.
  intros w. destruct (urlparse (status_query task_id)) as [p|] eqn:Hurl.
  - destruct (get_task_effect cred task_id w p Hurl) as (_ & _ & _ & _ & Htr).
    eexists. split; [exact Htr|]. constructor.
    + exists p. do 4 eexists. split; [exact Hurl|].
      rewrite body_hash_none. repeat split; reflexivity.
    + apply error_report_prints. intros line. exact I.
  - destruct (get_task_unparsed task_id w Hurl) as (d0 & ->).
    exists []. rewrite app_nil_r. split; [reflexivity | constructor].
Qed.

Lemma create_task_well_signed (file_url : string) :
  emits (well_signed cred) (create_task cred file_url).
Proof.
  intros w. destruct (urlparse endpoint) as [p|] eqn:Hurl.
  - destruct (create_task_effect cred file_url w p Hurl) as (_ & _ & _ & _ & Htr).
    eexists. split; [exact Htr|]. constructor.
    + exists p. do 4 eexists. split; [exact Hurl|].
      rewrite body_hash_default. repeat split; reflexivity.
    + apply error_report_prints. intros line. exact I.
  - destruct (create_task_unparsed file_url w Hurl) as (d0 & ->).
    exists []. rewrite app_nil_r. split; [reflexivity | constructor].
Qed.

Lemma get_task_preserves (task_id : value) :
  preserves_heap (get_task cred task_id).
Proof.
  intros w l d Hl. destruct (urlparse (status_query task_id)) as [p|] eqn:Hurl.
  - destruct (get_task_effect cred task_id w p Hurl) as (_ & Hheap & _).
    rewrite Hheap. apply lookup_alloc. exact Hl.
  - destruct (get_task_unparsed task_id w Hurl) as (d0 & ->).
    simpl. apply lookup_alloc. exact Hl.
Qed.

Lemma create_task_preserves (file_url : string) :
  preserves_heap (create_task cred file_url).
Proof.
  intros w l d Hl. destruct (urlparse endpoint) as [p|] eqn:Hurl.
  - destruct (create_task_effect cred file_url w p Hurl) as (_ & Hheap & _).
    rewrite Hheap. apply lookup_alloc. exact Hl.
  - destruct (create_task_unparsed file_url w Hurl) as (d0 & ->).
    simpl. apply lookup_alloc. exact Hl.
Qed.

(** *** The loop and the main block *)

Ltac run_invariant bind_lemma atom :=
  repeat first
    [ atom
    | match goal with
      | |- context [if ?b then _ else _] => destruct b
      | |- context [match ?c with Continue => _ | Break => _ end] => destruct c
      end
    | apply bind_lemma; [|intros ?] ].

Lemma poll_once_well_signed (task_id : value) :
  emits (well_signed cred) (poll_once cred task_id).
Proof.
  unfold poll_once, print, sleep.
  run_invariant (@emits_bind)
    ltac:(first [ apply get_task_well_signed
                | apply emits_event; exact I
                | apply emits_nothing; reflexivity ]).
Qed.

Lemma poll_loop_well_signed (turns : nat) (task_id : value) :
  emits (well_signed cred) (poll_loop cred turns task_id).
Proof.
  induction turns as [|turns IH]; simpl.
  - apply emits_nothing. reflexivity.
  - apply emits_bind; [apply poll_once_well_signed|].
    intros []; [exact IH | apply emits_nothing; reflexivity].
Qed.

Lemma poll_once_preserves (task_id : value) :
  preserves_heap (poll_once cred task_id).
Proof.
  unfold poll_once, print, sleep.
  run_invariant (@preserves_bind)
    ltac:(first [ apply get_task_preserves
                | apply preserves_same_heap; reflexivity ]).
Qed.

Lemma poll_loop_preserves (turns : nat) (task_id : value) :
  preserves_heap (poll_loop cred turns task_id).
Proof.
  induction turns as [|turns IH]; simpl.
  - apply preserves_same_heap. reflexivity.
  - apply preserves_bind; [apply poll_once_preserves|].
    intros []; [exact IH | apply preserves_same_heap; reflexivity].
Qed.

(** X7: every request a run sends, whatever the command line, the answers
    of the network and the number of turns, is consistently signed: its URL
    parses, its [x-acs-content-sha256] is the hash of the body it carries,
    and its [Authorization] is the value [sign] computes from the method,
    URL, body and header values of that same request.  The run never
    removes or rewrites what is already in the trace. *)
Theorem every_request_is_well_signed (turns : nat) (argv : list string) (w : World) :
  exists evs : list event,
    trace (fst (main cred turns argv w)) = trace w ++ evs /\
    Forall (well_signed cred) evs.
Proof.
  revert w. change (emits (well_signed cred) (main cred turns argv)).
  unfold main, print.
  run_invariant (@emits_bind)
    ltac:(first [ apply create_task_well_signed
                | apply poll_loop_well_signed
                | apply emits_event; exact I
                | apply emits_nothing; reflexivity ]).
Qed.

(** X8: a run signs each request in a mapping it allocates for that
    request: no mapping that was in the heap before [create_task],
    [get_task], the polling loop or the main block started is ever
    changed. *)
Theorem run_preserves_existing_mappings
    (turns : nat) (argv : list string) (file_url : string) (task_id : value) :
  preserves_heap (create_task cred file_url) /\
  preserves_heap (get_task cred task_id) /\
  preserves_heap (poll_loop cred turns task_id) /\
  preserves_heap (main cred turns argv).
Proof.
  split; [apply create_task_preserves|].
  split; [apply get_task_preserves|].
  split; [apply poll_loop_preserves|].
  unfold main, print.
  run_invariant (@preserves_bind)
    ltac:(first [ apply create_task_preserves
                | apply poll_loop_preserves
                | apply preserves_same_heap; reflexivity ]).
Qed.

End Invariants.

(** ** What the main block makes of the answer to the submission *)

Section Submission.

Context {rt : Runtime}.
Variable cred : Credentials.

Lemma main_run (turns : nat) (prog file_url : string) (rest : list string)
      (w w1 : World) (r : result value) :
  create_task cred file_url
    (with_trace (trace w ++ [EPrint ("Creating task for: " +:+ file_url)]) w)
  = (w1, r) ->
  main cred turns (prog :: file_url :: rest) w =
  match r with
  | Raise e => (w1, Raise e)
  | Ok resp =>
      if truthy resp then
        let w2 := with_trace (trace w1 ++ [EPrint (json_dumps_indent resp)]) w1 in
        match job_of resp with
        | Raise e => (w2, Raise e)
        | Ok None => (w2, Ok Finished)
        | Ok (Some task_id) =>
            poll_loop cred turns task_id
              (with_trace
                 (trace w2 ++ [ EPrint (nl +:+ "Task ID: " +:+ format_value task_id);
                                EPrint "Polling for result..." ]) w2)
        end
      else (w1, Ok Finished)
  end.
Proof.
  intros Hrun. unfold main.
  change (length (prog :: file_url :: rest) <? 2)%nat with false.
  change (nth 1 (prog :: file_url :: rest) "") with file_url.
  cbv iota. erewrite bind_ok by reflexivity.
  destruct r as [resp|e]; [|apply bind_raise; exact Hrun].
  rewrite (bind_ok _ _ _ _ _ Hrun).
  destruct (truthy resp); [|reflexivity].
  erewrite bind_ok by reflexivity.
  unfold job_of, bind, lift, print, emit, ret.
  destruct (contains "Data" resp) as [[]|e]; try reflexivity.
  destruct (subscript resp "Data") as [data|e]; try reflexivity.
  destruct (contains "TaskId" data) as [[]|e]; try reflexivity.
  destruct (subscript data "TaskId") as [task_id|e]; try reflexivity.
  simpl. rewrite <- app_assoc. reflexivity.
Qed.

Lemma created_world (file_url : string) (w : World) (p : ParseResult) :
  urlparse endpoint = Some p ->
  let w0 := with_trace (trace w ++ [EPrint ("Creating task for: " +:+ file_url)]) w in
  let w1 := fst (create_task cred file_url w0) in
  snd (create_task cred file_url w0) = call_outcome (network w (sent w)) /\
  sent w1 = S (sent w) /\
  network w1 = network w /\
  exists hdrs body,
    trace w1 = trace w ++ EPrint ("Creating task for: " +:+ file_url)
                       :: ERequest "POST" endpoint hdrs (Some body)
                       :: error_report (network w (sent w)).
Proof.
  intros Hurl w0 w1.
  pose proof (create_task_effect cred file_url w0 p Hurl) as H. cbv zeta in H.
  destruct H as (Hres & _ & _ & Hsent & Htr).
  destruct (create_task_run cred file_url w0 p Hurl) as (w1' & _ & Hrun & Hnet & _).
  split; [exact Hres|]. split; [exact Hsent|].
  split; [unfold w1; rewrite Hrun; exact Hnet|].
  do 2 eexists. unfold w1. rewrite Htr. unfold w0. simpl.
  rewrite <- app_assoc. reflexivity.
Qed.

(** X9: when the submission is answered by a JSON object that has no
    [Data] field, or whose [Data] object has no [TaskId], the main block
    prints the response and ends without polling, whatever the number of
    turns allowed: one request, no sleep, and the printed response is the
    last thing the process does. *)
Theorem main_without_job_identifier
    (turns : nat) (prog file_url : string) (rest : list string)
    (w : World) (p : ParseResult) (text : string) (items : list (string * value)) :
  urlparse endpoint = Some p ->
  network w (sent w) = Ok text ->
  json_loads text = Some (PyDict items) ->
  items <> [] ->
  (items_get "Data" items = None \/
   exists data, items_get "Data" items = Some (PyDict data) /\
                items_get "TaskId" data = None) ->
  exists w' : World,
    main cred turns (prog :: file_url :: rest) w = (w', Ok Finished) /\
    sent w' = S (sent w) /\
    actions (trace w') = actions (trace w) ++ [Requested "POST" endpoint] /\
    last (trace w') = Some (EPrint (json_dumps_indent (PyDict items))).
Proof.
  intros Hurl Hnet Hloads Hne Hshape.
  pose proof (created_world file_url w p Hurl) as H. cbv zeta in H.
  destruct H as (Hres & Hsent & _ & hdrs & body & Htr).
  rewrite (main_run turns prog file_url rest w _ _ (surjective_pairing _)).
  rewrite Hres, Hnet. simpl. unfold py_json_loads.
  rewrite (json_loads_str _ _ Hloads), Hloads.
  assert (Htruthy : truthy (PyDict items) = true) by (destruct items; [contradiction|reflexivity]).
  rewrite Htruthy.
  assert (Hjob : job_of (PyDict items) = Ok None).
  { unfold job_of. simpl. destruct Hshape as [Hnone | (data & Hdata & Hid)].
    - rewrite Hnone. reflexivity.
    - rewrite Hdata. simpl. rewrite Hid. reflexivity. }
  rewrite Hjob. eexists. split; [reflexivity|]. simpl.
  split; [exact Hsent|]. split.
  - rewrite actions_app, Htr, Hnet. simpl. rewrite actions_app. simpl.
    rewrite !app_nil_r. reflexivity.
  - apply last_snoc.
Qed.

(** X10: when the submission is answered by a JSON value that is false in
    Python ([null], [false], [0], an empty string, list or object), the
    main block ends at once and prints nothing about it: after the request
    the trace holds no further event. *)
Theorem main_silent_on_empty_response
    (turns : nat) (prog file_url : string) (rest : list string)
    (w : World) (p : ParseResult) (text : string) (resp : value) :
  urlparse endpoint = Some p ->
  network w (sent w) = Ok text ->
  json_loads text = Some resp ->
  truthy resp = false ->
  exists (w' : World) (hdrs : pydict) (body : string),
    main cred turns (prog :: file_url :: rest) w = (w', Ok Finished) /\
    trace w' = trace w ++ [ EPrint ("Creating task for: " +:+ file_url);
                            ERequest "POST" endpoint hdrs (Some body) ].
Proof.
  intros Hurl Hnet Hloads Hfalsy.
  pose proof (created_world file_url w p Hurl) as H. cbv zeta in H.
  destruct H as (Hres & _ & _ & hdrs & body & Htr).
  rewrite (main_run turns prog file_url rest w _ _ (surjective_pairing _)).
  rewrite Hres, Hnet. simpl. unfold py_json_loads.
  rewrite (json_loads_str _ _ Hloads), Hloads, Hfalsy.
  do 3 eexists. split; [reflexivity|]. rewrite Htr, Hnet. reflexivity.
Qed.

(** X11: a response that is true in Python but is a bare number or [true],
    or a JSON object whose [Data] field is [null], a number or a boolean,
    makes the membership test of line 133 raise [TypeError]; nothing catches
    it and the process ends with it after its single request. *)
Theorem main_type_error
    (turns : nat) (prog file_url : string) (rest : list string)
    (w : World) (p : ParseResult) (text : string) (resp : value) :
  urlparse endpoint = Some p ->
  network w (sent w) = Ok text ->
  json_loads text = Some resp ->
  (truthy resp = true /\ scalar resp) \/
  (exists items data, resp = PyDict items /\
                      items_get "Data" items = Some data /\ scalar data) ->
  exists (w' : World) (msg : string),
    main cred turns (prog :: file_url :: rest) w = (w', Raise (TypeError msg)) /\
    sent w' = S (sent w).
Proof.
  intros Hurl Hnet Hloads Hshape.
  pose proof (created_world file_url w p Hurl) as H. cbv zeta in H.
  destruct H as (Hres & Hsent & _).
  rewrite (main_run turns prog file_url rest w _ _ (surjective_pairing _)).
  rewrite Hres, Hnet. simpl. unfold py_json_loads.
  rewrite (json_loads_str _ _ Hloads), Hloads.
  destruct Hshape as [[Htruthy Hscalar] | (items & data & -> & Hdata & Hscalar)].
  - rewrite Htruthy.
    destruct resp; try contradiction; (do 2 eexists; split; [reflexivity | exact Hsent]).
  - rewrite (truthy_with_key _ _ _ Hdata). unfold job_of. simpl. rewrite Hdata.
    destruct data; try contradiction; (do 2 eexists; split; [reflexivity | exact Hsent]).
Qed.

(** X12: a 2xx answer that [json.loads] cannot parse makes the [try] block
    raise, and only [HTTPError] is caught there: when the body is
    well-formed UTF-8 but not JSON the exception is [JSONDecodeError]; when
    the body is not well-formed UTF-8, [decode] raises [UnicodeDecodeError]
    before [json.loads] is called.  Either way [create_task] and [get_task]
    raise it, the main block ends with it, and so does the polling loop at a
    poll answered that way. *)
Theorem non_json_answer_escapes
    (file_url : string) (task_id : value) (p q : ParseResult) (w : World)
    (text : string) :
  urlparse endpoint = Some p ->
  urlparse (status_query task_id) = Some q ->
  network w (sent w) = Ok text ->
  json_loads text = None ->
  exists msg : string,
    let e := if valid_utf8 text then JSONDecodeError msg else UnicodeDecodeError in
    snd (create_task cred file_url w) = Raise e /\
    snd (get_task cred task_id w) = Raise e /\
    (forall turns prog rest,
        snd (main cred turns (prog :: file_url :: rest) w) = Raise e) /\
    (forall turns,
        snd (poll_loop cred (S turns) task_id w) = Raise e).
Proof.
  intros Hp Hq Hnet Hloads.
  exists "Expecting value". cbv zeta.
  set (e := if valid_utf8 text then JSONDecodeError "Expecting value"
            else UnicodeDecodeError).
  assert (Hout : call_outcome (network w (sent w)) = Raise e).
  { rewrite Hnet. unfold e. simpl. unfold py_json_loads. rewrite Hloads.
    destruct (valid_utf8 text); reflexivity. }
  pose proof (create_task_effect cred file_url w p Hp) as Hc. cbv zeta in Hc.
  pose proof (get_task_effect cred task_id w q Hq) as Hg. cbv zeta in Hg.
  destruct Hc as (Hc & _). destruct Hg as (Hg & _).
  split; [rewrite Hc; exact Hout|]. split; [rewrite Hg; exact Hout|]. split.
  - intros turns prog rest.
    pose proof (created_world file_url w p Hp) as H. cbv zeta in H.
    destruct H as (Hres & _).
    rewrite (main_run turns prog file_url rest w _ _ (surjective_pairing _)).
    rewrite Hres, Hout. reflexivity.
  - intros turns.
    destruct (poll_loop_step cred task_id q Hq turns w) as (w1 & _ & _ & _ & Hstep).
    rewrite Hstep. unfold turn_outcome. rewrite Hout. reflexivity.
Qed.

(** X13: a poll answered by a JSON value that is true in Python but is not
    an object, or by an object whose [Data] field is not an object (a
    [null], for one), makes [.get] raise [AttributeError] at line 142; the
    loop ends with it at that poll. *)
Theorem poll_attribute_error
    (task_id : value) (p : ParseResult) (w : World) (k turns : nat)
    (text : string) (status : value) :
  urlparse (status_query task_id) = Some p ->
  (k < turns)%nat ->
  (forall i, (i < k)%nat -> in_progress (network w (sent w + i))) ->
  network w (sent w + k) = Ok text ->
  json_loads text = Some status ->
  (truthy status = true /\ ~ is_dict status) \/
  (exists items data, status = PyDict items /\
                      items_get "Data" items = Some data /\ ~ is_dict data) ->
  exists (w' : World) (msg : string),
    poll_loop cred turns task_id w = (w', Raise (AttributeError msg)) /\
    sent w' = (sent w + S k)%nat.
Proof.
  intros Hurl Hlt Hbefore Hnet Hloads Hshape.
  destruct (poll_loop_ends cred task_id p Hurl k turns w Hlt) as (w' & Hsent & Hend).
  { intros i Hi. apply turn_continue_iff, Hbefore, Hi. }
  assert (Hout : turn_outcome (network w (sent w + k)) = Raise (AttributeError "get")).
  { unfold turn_outcome. rewrite Hnet. simpl. unfold py_json_loads.
    rewrite (json_loads_str _ _ Hloads), Hloads.
    destruct Hshape as [[Htruthy Hnot] | (items & data & -> & Hdata & Hnot)].
    - rewrite Htruthy. destruct status; simpl in *; try reflexivity. tauto.
    - rewrite (truthy_with_key _ _ _ Hdata). simpl. rewrite Hdata. simpl.
      destruct data; simpl in *; try reflexivity. tauto. }
  rewrite Hout in Hend. exists w', "get". split; assumption.
Qed.

End Submission.

(** ** The shape of the two requests *)

Section RequestShape.

Context {rt : Runtime}.
Variable cred : Credentials.

(** X5: [get_task] reads the clock twice and sends exactly one request: a
    GET without body to the endpoint with [?TaskId=] and the job identifier
    appended, whose headers are, in this order, the action [GetTaskInfo],
    the version, the date of the first reading, the nonce made from the
    second reading, the hash of the empty body, and the [Authorization]
    that signs exactly these values.  Nothing follows the request in the
    trace, except after an HTTP error status: then the status line is
    printed, and after it the error body if it decodes as UTF-8. *)
Theorem get_task_request (task_id : value) (w : World) (p : ParseResult) :
  urlparse (status_query task_id) = Some p ->
  let date := utc_iso (clock w (ticks w)) in
  let nonce := md5_hexdigest (Hashlib.encode (epoch_str (clock w (S (ticks w))))) in
  let w' := fst (get_task cred task_id w) in
  trace w' =
    trace w ++
    ERequest "GET"
      ("https://tingwu.cn-beijing.aliyuncs.com/" +:+ "?TaskId=" +:+ format_value task_id)
      [ ("x-acs-action", "GetTaskInfo");
        ("x-acs-version", "2023-09-30");
        ("x-acs-date", date);
        ("x-acs-signature-nonce", nonce);
        ("x-acs-content-sha256",
         "e3b0c44298fc1c149afbf4c8996fb92427ae41e4649b934ca495991b7852b855");
        ("Authorization",
         authorization_for cred "GET" p None "GetTaskInfo" date nonce "2023-09-30") ]
      None
    :: match network w (sent w) with
       | Raise (HTTPError code raw) =>
           EPrint ("HTTP Error: " +:+ pretty code)
           :: (if valid_utf8 raw then [ EPrint raw ] else [])
       | _ => []
       end /\
  ticks w' = S (S (ticks w)) /\
  sent w' = S (sent w).
Proof.
  intros Hurl date nonce w'.
  pose proof (get_task_effect cred task_id w p Hurl) as H. cbv zeta in H.
  destruct H as (_ & _ & Hticks & Hsent & Htr).
  split; [exact Htr|]. split; assumption.
Qed.

(** X6: [create_task] reads the clock three times and sends exactly one
    request: a POST to the endpoint whose body is the JSON text of the job
    description, with the task key made from the third reading, and whose
    [x-acs-content-sha256] header is the SHA-256 of that very body;
    [Content-Type] goes first and the two headers [sign] adds go last.
    Nothing follows the request in the trace, except after an HTTP error
    status: then the status line is printed, and after it the error body if
    it decodes as UTF-8. *)
Theorem create_task_request (file_url : string) (w : World) (p : ParseResult) :
  urlparse endpoint = Some p ->
  let date := utc_iso (clock w (ticks w)) in
  let nonce := md5_hexdigest (Hashlib.encode (epoch_str (clock w (S (ticks w))))) in
  let body :=
    json_dumps
      (PyDict
         [ ("AppKey", PyStr (APP_KEY cred));
           ("Input",
            PyDict [ ("SourceLanguage", PyStr "en");
                     ("FileUrl", PyStr file_url);
                     ("TaskKey",
                      PyStr ("task_" +:+ pretty (epoch_int (clock w (S (S (ticks w))))))) ]);
           ("Parameters",
            PyDict [ ("Transcription",
                      PyDict [ ("DiarizationEnabled", PyBool true);
                               ("Diarization", PyDict [ ("SpeakerCount", PyInt 0) ]) ]) ]) ]) in
  let w' := fst (create_task cred file_url w) in
  trace w' =
    trace w ++
    ERequest "POST" "https://tingwu.cn-beijing.aliyuncs.com/"
      [ ("Content-Type", "application/json");
        ("x-acs-action", "CreateTask");
        ("x-acs-version", "2023-09-30");
        ("x-acs-date", date);
        ("x-acs-signature-nonce", nonce);
        ("x-acs-content-sha256", Hashlib.sha256_hexdigest (Hashlib.encode body));
        ("Authorization",
         authorization_for cred "POST" p (Some body) "CreateTask" date nonce "2023-09-30") ]
      (Some body)
    :: match network w (sent w) with
       | Raise (HTTPError code raw) =>
           EPrint ("HTTP Error: " +:+ pretty code)
           :: (if valid_utf8 raw then [ EPrint raw ] else [])
       | _ => []
       end /\
  ticks w' = S (S (S (ticks w))) /\
  sent w' = S (sent w).
Proof.
  intros Hurl date nonce body w'.
  pose proof (create_task_effect cred file_url w p Hurl) as H. cbv zeta in H.
  destruct H as (_ & _ & Hticks & Hsent & Htr).
  split; [exact Htr|]. split; assumption.
Qed.

End RequestShape.

(** ** The further properties at concrete inputs *)

Lemma sign_rejected_url_changes_nothing_witness :
  urlparse (Runtime := Demo.runtime) "http://[" = None /\
  exists msg,
    sign (rt := Demo.runtime) Demo.cred "GET" "http://[" 1%positive None
         (Demo.holding Demo.query_headers)
    = (Demo.holding Demo.query_headers, Raise (ValueError msg)).
Proof.
  split; [vm_compute; reflexivity|].
  apply (sign_rejected_url_changes_nothing (rt := Demo.runtime) Demo.cred).
  vm_compute. reflexivity.
Defined.

(** Another scheme, an empty path against [/], a fragment, an empty body
    against none, the entries in another order and one more header: the
    same signature. *)
Lemma signature_covers_only_signed_parts_witness :
  exists w1' w2' auth,
    sign (rt := Demo.runtime) Demo.cred "GET"
         "https://tingwu.cn-beijing.aliyuncs.com" 1%positive None
         (Demo.holding Demo.query_headers) = (w1', Ok 1%positive) /\
    sign (rt := Demo.runtime) Demo.cred "GET"
         "http://tingwu.cn-beijing.aliyuncs.com/#top" 1%positive (Some "")
         (Demo.holding (("Content-Type", "text/plain") :: rev Demo.query_headers))
    = (w2', Ok 1%positive) /\
    dict_get "Authorization" (deref 1%positive w1') = Some auth /\
    dict_get "Authorization" (deref 1%positive w2') = Some auth.
Proof.
  destruct (signature_covers_only_signed_parts (rt := Demo.runtime) Demo.cred "GET"
              "https://tingwu.cn-beijing.aliyuncs.com"
              "http://tingwu.cn-beijing.aliyuncs.com/#top"
              None (Some "") 1%positive 1%positive
              (Demo.holding Demo.query_headers)
              (Demo.holding (("Content-Type", "text/plain") :: rev Demo.query_headers))
              {| scheme := "https"; netloc := "tingwu.cn-beijing.aliyuncs.com";
                 path := ""; params := ""; query := ""; fragment := "" |}
              {| scheme := "http"; netloc := "tingwu.cn-beijing.aliyuncs.com";
                 path := "/"; params := ""; query := ""; fragment := "top" |}
              Demo.query_headers
              (("Content-Type", "text/plain") :: rev Demo.query_headers))
    as (w1' & w2' & auth & bhash & H1 & H2 & A1 & A2 & _).
  - vm_compute. reflexivity.
  - vm_compute. reflexivity.
  - reflexivity.
  - reflexivity.
  - reflexivity.
  - reflexivity.
  - vm_compute. reflexivity.
  - vm_compute. reflexivity.
  - intros k Hin. simpl in Hin.
    destruct Hin as [<-|[<-|[<-|[<-|[]]]]]; (split; [eexists|]; reflexivity).
  - exists w1', w2', auth. repeat split; assumption.
Defined.

Lemma sign_twice_witness :
  exists w1,
    sign (rt := Demo.runtime) Demo.cred "GET" Demo.status_url 1%positive None
         (Demo.holding Demo.query_headers) = (w1, Ok 1%positive) /\
    sign (rt := Demo.runtime) Demo.cred "GET" Demo.status_url 1%positive None w1
    = (w1, Ok 1%positive).
Proof.
  apply (sign_twice (rt := Demo.runtime) Demo.cred "GET" Demo.status_url 1%positive None
           (Demo.holding Demo.query_headers) Demo.status_parsed Demo.query_headers
           "GetTaskInfo" "2024-01-01T12:00:00Z" "0cc175b9c0f1b6a831c399e269772661"
           "2023-09-30");
    vm_compute; reflexivity.
Defined.

Lemma sign_appends_new_entries_witness :
  exists w',
    sign (rt := Demo.runtime) Demo.cred "GET" Demo.status_url 1%positive None
         (Demo.holding Demo.query_headers) = (w', Ok 1%positive) /\
    map fst (default [] (heap w' !! 1%positive))
    = [ "x-acs-action"; "x-acs-version"; "x-acs-date"; "x-acs-signature-nonce";
        "x-acs-content-sha256"; "Authorization" ].
Proof.
  destruct (sign_appends_new_entries (rt := Demo.runtime) Demo.cred
              "GET" Demo.status_url 1%positive None
              (Demo.holding Demo.query_headers) Demo.status_parsed Demo.query_headers
              "GetTaskInfo" "2024-01-01T12:00:00Z" "0cc175b9c0f1b6a831c399e269772661"
              "2023-09-30")
    as (w' & Hrun & Hheap); try (vm_compute; reflexivity).
  exists w'. split; [exact Hrun|]. rewrite Hheap. reflexivity.
Defined.

Lemma get_task_request_witness :
  sent (fst (get_task (rt := Demo.runtime) Demo.cred (PyStr "t-1")
               (Demo.world (fun _ => Raise TimeoutError)))) = 1%nat /\
  ticks (fst (get_task (rt := Demo.runtime) Demo.cred (PyStr "t-1")
                (Demo.world (fun _ => Raise TimeoutError)))) = 2%nat.
Proof.
  destruct (get_task_request (rt := Demo.runtime) Demo.cred (PyStr "t-1")
              (Demo.world (fun _ => Raise TimeoutError)) Demo.status_parsed)
    as (_ & Hticks & Hsent).
  - vm_compute. reflexivity.
  - split; [exact Hsent | exact Hticks].
Defined.

Lemma create_task_request_witness :
  sent (fst (create_task (rt := Demo.runtime) Demo.cred "https://example.com/a.mp3"
               (Demo.world (fun _ => Raise TimeoutError)))) = 1%nat /\
  ticks (fst (create_task (rt := Demo.runtime) Demo.cred "https://example.com/a.mp3"
                (Demo.world (fun _ => Raise TimeoutError)))) = 3%nat.
Proof.
  destruct (create_task_request (rt := Demo.runtime) Demo.cred "https://example.com/a.mp3"
              (Demo.world (fun _ => Raise TimeoutError)) Samples.endpoint_parsed)
    as (_ & Hticks & Hsent).
  - vm_compute. reflexivity.
  - split; [exact Hsent | exact Hticks].
Defined.

(** The service answers the submission with an error report. *)
Lemma main_without_job_identifier_witness :
  exists w',
    main (rt := Samples.runtime) Demo.cred 5 Samples.argv
      (Demo.world (Demo.script
         [ Ok (Demo.dumps (PyDict [ ("Code", PyStr "InvalidParameter") ])) ]))
    = (w', Ok Finished) /\
    sent w' = 1%nat.
Proof.
  destruct (main_without_job_identifier (rt := Samples.runtime) Demo.cred 5
              "tingwu_transcribe.py" "https://example.com/a.mp3" []
              (Demo.world (Demo.script
                 [ Ok (Demo.dumps (PyDict [ ("Code", PyStr "InvalidParameter") ])) ]))
              Samples.endpoint_parsed
              (Demo.dumps (PyDict [ ("Code", PyStr "InvalidParameter") ]))
              [ ("Code", PyStr "InvalidParameter") ])
    as (w' & Hrun & Hsent & _).
  - vm_compute. reflexivity.
  - reflexivity.
  - vm_compute. reflexivity.
  - discriminate.
  - left. reflexivity.
  - exists w'. split; [exact Hrun | exact Hsent].
Defined.

Lemma main_silent_on_empty_response_witness :
  exists w' hdrs body,
    main (rt := Samples.runtime) Demo.cred 5 Samples.argv
      (Demo.world (Demo.script [ Ok "{}" ]))
    = (w', Ok Finished) /\
    trace w' = [ EPrint "Creating task for: https://example.com/a.mp3";
                 ERequest "POST" endpoint hdrs (Some body) ].
Proof.
  apply (main_silent_on_empty_response (rt := Samples.runtime) Demo.cred 5
           "tingwu_transcribe.py" "https://example.com/a.mp3" []
           (Demo.world (Demo.script [ Ok "{}" ]))
           Samples.endpoint_parsed "{}" (PyDict [])).
  - vm_compute. reflexivity.
  - reflexivity.
  - vm_compute. reflexivity.
  - reflexivity.
Defined.

Lemma main_type_error_witness :
  exists w' msg,
    main (rt := Samples.runtime) Demo.cred 5 Samples.argv
      (Demo.world (Demo.script [ Ok "42" ]))
    = (w', Raise (TypeError msg)) /\
    sent w' = 1%nat.
Proof.
  apply (main_type_error (rt := Samples.runtime) Demo.cred 5
           "tingwu_transcribe.py" "https://example.com/a.mp3" []
           (Demo.world (Demo.script [ Ok "42" ]))
           Samples.endpoint_parsed "42" (PyInt 42)).
  - vm_compute. reflexivity.
  - reflexivity.
  - vm_compute. reflexivity.
  - left. split; [reflexivity | exact I].
Defined.

Lemma non_json_answer_escapes_witness :
  exists msg,
    snd (create_task (rt := Samples.runtime) Demo.cred "https://example.com/a.mp3"
           (Demo.world (Demo.script [ Ok "<html>Bad Gateway</html>" ])))
    = Raise (JSONDecodeError msg).
Proof.
  destruct (non_json_answer_escapes (rt := Samples.runtime) Demo.cred
              "https://example.com/a.mp3" (PyStr "t-1")
              Samples.endpoint_parsed Demo.status_parsed
              (Demo.world (Demo.script [ Ok "<html>Bad Gateway</html>" ]))
              "<html>Bad Gateway</html>")
    as (msg & Hcreate & _).
  - vm_compute. reflexivity.
  - vm_compute. reflexivity.
  - reflexivity.
  - vm_compute. reflexivity.
  - exists msg. exact Hcreate.
Defined.

(** The first poll is answered by an object whose [Data] is [null]. *)
Lemma poll_attribute_error_witness :
  exists w' msg,
    poll_loop (rt := Samples.runtime) Demo.cred 5 (PyStr "t-1")
      (Demo.world (Demo.script [ Ok (Demo.dumps (PyDict [ ("Data", PyNone) ])) ]))
    = (w', Raise (AttributeError msg)) /\
    sent w' = 1%nat.
Proof.
  apply (poll_attribute_error (rt := Samples.runtime) Demo.cred (PyStr "t-1")
           Demo.status_parsed
           (Demo.world (Demo.script [ Ok (Demo.dumps (PyDict [ ("Data", PyNone) ])) ]))
           0%nat 5%nat
           (Demo.dumps (PyDict [ ("Data", PyNone) ]))
           (PyDict [ ("Data", PyNone) ])).
  - vm_compute. reflexivity.
  - lia.
  - intros i Hi. lia.
  - reflexivity.
  - vm_compute. reflexivity.
  - right. exists [ ("Data", PyNone) ], PyNone.
    split; [reflexivity|]. split; [reflexivity|]. intros H. exact H.
Defined.

(** An HTTP error status whose body is not UTF-8: the status line is
    printed, then the handler itself raises and the loop ends at that
    poll. *)
Example scenario_undecodable_error_body :
  let run :=
    poll_loop (rt := Demo.runtime) Demo.cred 4 (PyStr "t-1")
      (Demo.world (fun _ => Raise (HTTPError 500 (bytes_of [255; 254])))) in
  snd run = Raise UnicodeDecodeError /\
  sent (fst run) = 1%nat /\
  last (trace (fst run)) = Some (EPrint "HTTP Error: 500").
Proof. repeat split; vm_compute; reflexivity. Qed.
